(** * MappingScript: MagmaSoft mapped stresses to an OptiStruct INISTRS block

    A shallow embedding of [MappingScript.py].  The script reads six
    two-column tables with [pandas.read_csv], joins them on the element
    column with [DataFrame.merge], renders every cell with [format_field]
    in fixed 8-character columns and writes the lines joined by newlines.

    Layout of the development:
    - [Py]      the Python string operations the script relies on
                (format specs [<8], [>8], [8], slicing, [str.join]);
    - [Float]   float64 values and their [repr];
    - [Pandas]  the three pandas operations used ([read_csv] with the
                options of the script, [merge] on a key, [iterrows]);
    - [Script]  the script itself, top to bottom;
    - the properties of the reader, the joiner and the formatter. *)

From Stdlib Require Import ZArith List String Ascii Bool Lia Arith.
Import ListNotations.

Local Open Scope string_scope.
Local Open Scope Z_scope.

(** ** Exceptions *)

(** The two exceptions that can leave the script: [ValueError] is raised
    by the fallback branch of [format_field], [ParserError] by the
    tokenizer of [read_csv]. *)
Inductive exn : Type :=
| ValueError
| ParserError.

Inductive result (A : Type) : Type :=
| Ok (a : A)
| Raise (e : exn).

Arguments Ok {A} a.
Arguments Raise {A} e.

Definition bind {A B : Type} (m : result A) (k : A -> result B) : result B :=
  match m with
  | Ok a => k a
  | Raise e => Raise e
  end.

Notation "x <- m ;; k" := (bind m (fun x => k))
  (at level 61, m at next level, right associativity).

Fixpoint mapM {A B : Type} (f : A -> result B) (l : list A) : result (list B) :=
  match l with
  | [] => Ok []
  | a :: l' => b <- f a ;; bs <- mapM f l' ;; Ok (b :: bs)
  end.

(** ** Python strings *)

Module Py.

(** [c * n] for a one-character string. *)
Fixpoint replicate (n : nat) (c : ascii) : string :=
  match n with
  | O => ""
  | S n' => String c (replicate n' c)
  end.

Definition spaces (n : nat) : string := replicate n " "%char.

(** [s[:n]] *)
Fixpoint take (n : nat) (s : string) : string :=
  match n, s with
  | S n', String c s' => String c (take n' s')
  | _, _ => ""
  end.

(** [s[n:]] *)
Fixpoint drop (n : nat) (s : string) : string :=
  match n, s with
  | S n', String _ s' => drop n' s'
  | _, _ => s
  end.

(** [f"{s:<w}"]: pad on the right up to width [w]; a longer string is
    returned whole. *)
Definition ljust (w : nat) (s : string) : string :=
  s ++ spaces (w - String.length s).

(** [f"{s:>w}"]: pad on the left up to width [w]; a longer string is
    returned whole. *)
Definition rjust (w : nat) (s : string) : string :=
  spaces (w - String.length s) ++ s.

(** [sep.join(ls)] *)
Definition join (sep : string) (ls : list string) : string :=
  String.concat sep ls.

(** *** [str(n)] for an [int] *)

Definition digit_char (d : Z) : ascii := ascii_of_nat (48 + Z.to_nat d).

(** Decimal digits of [n >= 0], most significant first, in front of [acc].
    One digit is produced per unit of fuel. *)
Fixpoint digits_go (fuel : nat) (n : Z) (acc : string) : string :=
  match fuel with
  | O => acc
  | S fuel' =>
      let acc' := String (digit_char (n mod 10)) acc in
      if n / 10 =? 0 then acc' else digits_go fuel' (n / 10) acc'
  end.

(** A number has no more decimal digits than binary ones. *)
Definition str_nat (n : Z) : string :=
  digits_go (S (Z.to_nat (Z.log2 n))) n "".

Definition str_int (n : Z) : string :=
  if n <? 0 then "-" ++ str_nat (- n) else str_nat n.

(** *** [int(s)] for a [str] *)

Definition is_digit (c : ascii) : bool :=
  let k := nat_of_ascii c in (48 <=? k)%nat && (k <=? 57)%nat.

Definition digit_val (c : ascii) : Z := Z.of_nat (nat_of_ascii c - 48).

Fixpoint parse_digits (s : string) (acc : Z) : option Z :=
  match s with
  | "" => Some acc
  | String c s' =>
      if is_digit c then parse_digits s' (10 * acc + digit_val c) else None
  end.

(** An optional sign and at least one digit. *)
Definition parse_int (s : string) : option Z :=
  match s with
  | "" => None
  | String c s' =>
      if Ascii.eqb c "-" then
        match s' with
        | "" => None
        | _ => option_map Z.opp (parse_digits s' 0)
        end
      else if Ascii.eqb c "+" then
        match s' with
        | "" => None
        | _ => parse_digits s' 0
        end
      else parse_digits s 0
  end.

Fixpoint lstrip (s : string) : string :=
  match s with
  | String c s' => if Ascii.eqb c " " then lstrip s' else s
  | "" => ""
  end.

Fixpoint rstrip (s : string) : string :=
  match s with
  | "" => ""
  | String c s' =>
      match rstrip s' with
      | "" => if Ascii.eqb c " " then "" else String c ""
      | r => String c r
      end
  end.

(** [int(s)]: the padding around the digits is ignored. *)
Definition int_of_str (s : string) : option Z :=
  parse_int (rstrip (lstrip s)).

End Py.

(** ** float64 *)

Module Float.

(** A float64 is represented by what the runtime's shortest round-trip
    conversion yields for it, which is all that [repr] looks at: a sign,
    the significant decimal digits [d1 d2 ... dk], and the position
    [decpt] of the decimal point, the value being
    [0.d1d2...dk * 10^decpt].  Zero is the digit string ["0"] with
    [decpt = 1]. *)
Inductive float64 : Type :=
| Finite (neg : bool) (digits : string) (decpt : Z)
| Inf (neg : bool)
| NaN.

Definition sign_str (neg : bool) : string := if neg then "-" else "".

Definition zeros (n : Z) : string := Py.replicate (Z.to_nat n) "0"%char.

(** The mantissa of the exponent form: [d1] alone, or [d1.d2...dk]. *)
Definition mantissa (digits : string) : string :=
  match digits with
  | "" => ""
  | String d "" => String d ""
  | String d rest => String d ("." ++ rest)
  end.

(** The exponent is printed with a sign and at least two digits. *)
Definition exponent (e : Z) : string :=
  (if e <? 0 then "-" else "+") ++
  (if Z.abs e <? 10 then "0" else "") ++ Py.str_nat (Z.abs e).

(** [repr(x)], which is also what an empty presentation type formats:
    exponent form when [decpt <= -4] or [decpt > 16], otherwise
    positional form with at least one digit after the point. *)
Definition repr (x : float64) : string :=
  match x with
  | NaN => "nan"
  | Inf neg => sign_str neg ++ "inf"
  | Finite neg digits decpt =>
      let k := Z.of_nat (String.length digits) in
      sign_str neg ++
      (if (decpt <=? -4) || (16 <? decpt) then
         mantissa digits ++ "e" ++ exponent (decpt - 1)
       else if decpt <=? 0 then
         "0." ++ zeros (- decpt) ++ digits
       else if decpt <? k then
         Py.take (Z.to_nat decpt) digits ++ "." ++ Py.drop (Z.to_nat decpt) digits
       else
         digits ++ zeros (decpt - k) ++ ".0")
  end.

Fixpoint all_zero (digits : string) : bool :=
  match digits with
  | "" => true
  | String c s => Ascii.eqb c "0" && all_zero s
  end.

(** [x < 0] *)
Definition ltb0 (x : float64) : bool :=
  match x with
  | Finite true digits _ => negb (all_zero digits)
  | Inf true => true
  | _ => false
  end.

End Float.

Import Float.

(** ** The field formatter *)

(** The values [format_field] is applied to, by the runtime type it
    inspects.  [VOther] stands for an object that is neither a [str], an
    [int] nor a [float]. *)
Inductive value : Type :=
| VStr (s : string)
| VInt (n : Z)
| VFloat (x : float64)
| VOther.

Definition format_field (v : value) : result string :=
  match v with
  | VStr s => Ok (Py.ljust 8 s)
  | VInt n => Ok (Py.rjust 8 (Py.str_int n))
  | VFloat x =>
      if Float.ltb0 x then
        let formatted := Py.rjust 8 (Float.repr x) in
        Ok (if (8 <? String.length formatted)%nat then Py.take 8 formatted else formatted)
      else
        let formatted := Py.rjust 8 (Float.repr x) in
        Ok (if (8 <? String.length formatted)%nat then Py.take 8 formatted else formatted)
  | VOther => Raise ValueError
  end.

(** ** pandas *)

Module Pandas.

(** *** Frames *)

(** The frame [read_csv] returns for a source in the documented format:
    an int64 column [ELEM] and a float64 value column, row by row.  (Only
    a file whose values are all written as integers gives another dtype to
    its value column; the tables of the statements hold decimal values.) *)
Definition ComponentTable : Type := list (Z * float64).

(** A frame with the key column [ELEM] followed by float64 columns. *)
Definition DataFrame : Type := list (Z * list float64).

(** [df[["ELEM"]].copy()] *)
Definition select_ELEM (df : ComponentTable) : DataFrame :=
  map (fun r => (fst r, [])) df.

(** The rows of [right] whose key is [k], in the order of [right]. *)
Definition matching (k : Z) (right : ComponentTable) : ComponentTable :=
  filter (fun r => fst r =? k) right.

(** [left.merge(right, on="ELEM")]: the default [how="inner"] keeps the
    keys found in both frames, in the order of the left keys; a left row
    is paired with every right row of the same key, so repeated keys give
    the product of the matching rows.  The value column of [right] is
    appended to the columns of [left] (the six value columns of the script
    have pairwise distinct names, so no column is renamed).  The script
    passes no [validate] argument: repeated keys are not looked for. *)
Definition merge (left : DataFrame) (right : ComponentTable) : DataFrame :=
  flat_map
    (fun l => map (fun r => (fst l, (snd l ++ [snd r])%list)) (matching (fst l) right))
    left.

(** *** Rows *)

(** [float(n)] followed by [int(...)], for an int64 [n]: the integer held
    by the float64 nearest to [n].  Up to 53 significant bits the
    conversion is exact; beyond, the low bits are rounded off, ties to
    even. *)
Definition int_of_float64_of_int64 (n : Z) : Z :=
  let a := Z.abs n in
  let sh := Z.log2 a - 52 in
  if sh <=? 0 then n
  else
    let q := Z.shiftr a sh in
    let r := Z.land a (Z.ones sh) in
    let half := Z.shiftl 1 (sh - 1) in
    let q' := if (half <? r) || ((r =? half) && Z.odd q) then q + 1 else q in
    Z.sgn n * Z.shiftl q' sh.

(** A row as [iterrows] yields it: one Series for the whole row, so the
    [ELEM] entry, an int64 (identifiers lie in the int64 range), is upcast
    to the float64 dtype of the value columns.
    [row_ELEM] is the integer which that float64 entry holds, which is what
    [int(row["ELEM"])] returns; [row_values] is [row[1:].values]. *)
Record Series : Type := mkSeries {
  row_ELEM : Z;
  row_values : list float64
}.

Definition iterrows (df : DataFrame) : list Series :=
  map (fun r => mkSeries (int_of_float64_of_int64 (fst r)) (snd r)) df.

(** *** [read_csv(file, sep='\s+', comment='$', header=None, names=[_, _])] *)

(** A source is given by its lines, without the line terminators.  The
    model covers lines of printable ASCII characters in which no quote
    character stands before the comment character (the statements below
    say so where they rely on it). *)

Fixpoint strip_comment (s : string) : string :=
  match s with
  | "" => ""
  | String c s' => if Ascii.eqb c "$" then "" else String c (strip_comment s')
  end.

Definition is_space (c : ascii) : bool :=
  Ascii.eqb c " " || Ascii.eqb c "009".

(** Split on runs of whitespace; [cur] is the field being read. *)
Fixpoint fields_go (s : string) (cur : string) : list string :=
  match s with
  | "" => match cur with "" => [] | _ => [cur] end
  | String c s' =>
      if is_space c then
        match cur with
        | "" => fields_go s' ""
        | _ => cur :: fields_go s' ""
        end
      else fields_go s' (cur ++ String c "")
  end.

(** The fields of a line: what precedes the comment character, split on
    whitespace. *)
Definition fields (line : string) : list string :=
  fields_go (strip_comment line) "".

(** A line that begins with the comment character. *)
Definition starts_comment (line : string) : bool :=
  match line with
  | String c _ => Ascii.eqb c "$"
  | "" => false
  end.

(** A line of whitespace only, the empty line included. *)
Fixpoint blank (line : string) : bool :=
  match line with
  | "" => true
  | String c s => is_space c && blank s
  end.

(** The record of a line, if it gives one.  Empty lines, lines of
    whitespace and lines that begin with the comment character are
    skipped.  Any other line gives a record with its fields; when the line
    is whitespace followed by the comment character the record has no
    field at all, and is completed with missing values like any short
    record. *)
Definition line_record (line : string) : option (list string) :=
  if starts_comment line || blank line then None else Some (fields line).

Definition records (lines : list string) : list (list string) :=
  flat_map (fun l => match line_record l with
                     | Some r => [r]
                     | None => []
                     end) lines.

(** The number of fields expected on every line: that of the first
    record, and at least the number of names. *)
Definition expected_fields (recs : list (list string)) : nat :=
  match recs with
  | [] => 2
  | r :: _ => Nat.max (List.length r) 2
  end.

(** The fields at positions [i] and [i + 1], if present. *)
Definition two_from (i : nat) (r : list string) : option string * option string :=
  (nth_error r i, nth_error r (S i)).

(** The tokenizer: a record after the first with more fields than expected
    raises; a shorter record is completed with missing fields.  When the
    first record has more fields than names, the leading columns become
    the index and the two names label the last two columns. *)
Definition tokenize (lines : list string)
  : result (list (option string * option string)) :=
  let recs := records lines in
  let n := expected_fields recs in
  if forallb (fun r => (List.length r <=? n)%nat) recs
  then Ok (map (two_from (n - 2)) recs)
  else Raise ParserError.

(** The strings read as a missing value. *)
Definition na_values : list string :=
  [ ""; "#N/A"; "#N/A N/A"; "#NA"; "-1.#IND"; "-1.#QNAN"; "-NaN"; "-nan";
    "1.#IND"; "1.#QNAN"; "<NA>"; "N/A"; "NA"; "NULL"; "NaN"; "None"; "n/a";
    "nan"; "null" ].

Definition na_filter (t : option string) : option string :=
  match t with
  | Some s => if existsb (String.eqb s) na_values then None else Some s
  | None => None
  end.

(** The cells of a frame read from a file. *)
Inductive cell : Type :=
| CInt (n : Z)
| CFloat (x : float64)
| CBool (b : bool)
| CStr (s : string).

Fixpoint all_some {A : Type} (l : list (option A)) : option (list A) :=
  match l with
  | [] => Some []
  | Some a :: l' => option_map (cons a) (all_some l')
  | None :: _ => None
  end.

Definition in_int64 (n : Z) : bool := (- 2 ^ 63 <=? n) && (n <? 2 ^ 63).
Definition in_uint64 (n : Z) : bool := (0 <=? n) && (n <? 2 ^ 64).

(** An integer column: every field present and an integer, all of them
    in the int64 range or all of them in the uint64 range. *)
Definition try_int (toks : list (option string)) : option (list cell) :=
  match all_some (map (fun t => match t with
                                | Some s => Py.parse_int s
                                | None => None
                                end) toks) with
  | Some ns =>
      if forallb in_int64 ns || forallb in_uint64 ns
      then Some (map CInt ns) else None
  | None => None
  end.

Definition bool_of_token (s : string) : option bool :=
  if existsb (String.eqb s) ["True"; "TRUE"; "true"] then Some true
  else if existsb (String.eqb s) ["False"; "FALSE"; "false"] then Some false
  else None.

Section Reader.

(** The numeric conversion of a field, [None] when the field is not a
    number. *)
Variable to_float : string -> option float64.

(** A float64 column: every field missing or a number. *)
Definition try_float (toks : list (option string)) : option (list cell) :=
  all_some (map (fun t => match t with
                          | Some s => option_map CFloat (to_float s)
                          | None => Some (CFloat NaN)
                          end) toks).

Definition try_bool (toks : list (option string)) : option (list cell) :=
  all_some (map (fun t => match t with
                          | Some s => option_map CBool (bool_of_token s)
                          | None => Some (CFloat NaN)
                          end) toks).

Definition as_object (toks : list (option string)) : list cell :=
  map (fun t => match t with
                | Some s => CStr s
                | None => CFloat NaN
                end) toks.

(** The dtype of a column is inferred from all its fields: int64, else
    float64, else bool, else object (the strings as they are). *)
Definition convert_column (toks : list (option string)) : list cell :=
  let toks := map na_filter toks in
  match try_int toks with
  | Some c => c
  | None =>
      match try_float toks with
      | Some c => c
      | None =>
          match try_bool toks with
          | Some c => c
          | None => as_object toks
          end
      end
  end.

Definition read_csv (lines : list string) : result (list (cell * cell)) :=
  rows <- tokenize lines ;;
  Ok (combine (convert_column (map fst rows)) (convert_column (map snd rows))).

End Reader.

End Pandas.

Import Pandas.

(** ** The script *)

Module Script.

(** File names for the six stress components. *)
Definition file_names : list string :=
  [ "StressE_TensorX_Ambient_MPa.fem";      (* XX *)
    "StressE_TensorY_Ambient_MPa.fem";      (* YY *)
    "StressE_TensorY_Ambient_MPa.fem";      (* ZZ *)
    "StressE_TensorXY_c8_Ambient_MPa.fem";  (* XY *)
    "StressE_TensorXZ_c8_Ambient_MPa.fem";  (* YZ *)
    "StressE_TensorXZ_c8_Ambient_MPa.fem"   (* ZX *) ].

Definition components : list string := ["XX"; "YY"; "ZZ"; "XY"; "YZ"; "ZX"].

Section Files.

(** The table read from each file. *)
Variable read : string -> ComponentTable.

(** One frame per pair of [zip(file_names, components)]; the component
    only names the value column. *)
Definition data_frames : list ComponentTable :=
  map (fun fc => read (fst fc)) (combine file_names components).

End Files.

(** Merge data on the element column: the [ELEM] column of the first
    frame, merged with every frame in turn (the first included).  The
    script always has six frames, so [data_frames[0]] exists. *)
Definition combined_data (data_frames : list ComponentTable) : DataFrame :=
  fold_left merge data_frames (select_ELEM (hd [] data_frames)).

(** The header: all four arguments are [str] literals. *)
Definition header_line : result string :=
  f1 <- format_field (VStr "INISTRS") ;;
  f2 <- format_field (VStr "100") ;;
  f3 <- format_field (VStr "") ;;
  f4 <- format_field (VStr "0") ;;
  Ok (f1 ++ f2 ++ f3 ++ f4).

Definition elem_line (row : Series) : result string :=
  f1 <- format_field (VStr "") ;;
  f2 <- format_field (VStr "ELEM") ;;
  f3 <- format_field (VInt (row_ELEM row)) ;;
  Ok (f1 ++ f2 ++ f3).

(** The values of a row are the entries of float64 columns, which
    [format_field] takes by its float branch.  (The entries of a value
    column of another dtype are no [float] for [isinstance]; frames with
    such a column are outside the model.) *)
Definition value_line (row : Series) : result string :=
  f1 <- format_field (VStr "") ;;
  f2 <- format_field (VStr "VALUE") ;;
  fs <- mapM (fun v => format_field (VFloat v)) (row_values row) ;;
  Ok (f1 ++ f2 ++ Py.join "" fs).

(** The lines appended for the rows, two per row. *)
Fixpoint row_lines (rows : list Series) : result (list string) :=
  match rows with
  | [] => Ok []
  | row :: rows' =>
      e <- elem_line row ;;
      v <- value_line row ;;
      rest <- row_lines rows' ;;
      Ok (e :: v :: rest)
  end.

Definition output_lines (combined : DataFrame) : result (list string) :=
  h <- header_line ;;
  ls <- row_lines (iterrows combined) ;;
  Ok (h :: ls).

(** What is written to the output file. *)
Definition output (combined : DataFrame) : result string :=
  ls <- output_lines combined ;;
  Ok (Py.join (String "010" "") ls).

(** The whole script, from the tables read to the text written. *)
Definition main (read : string -> ComponentTable) : result string :=
  output (combined_data (data_frames read)).

End Script.

Import Script.

(** ** Vocabulary of the statements *)

(** Every character of [s] satisfies [p]. *)
Fixpoint all_chars (p : ascii -> bool) (s : string) : bool :=
  match s with
  | "" => true
  | String c s' => p c && all_chars p s'
  end.

Definition not_space (c : ascii) : bool := negb (Ascii.eqb c " ").

(** A table in which no element identifier is repeated. *)
Definition unique_ids (t : ComponentTable) : Prop := NoDup (map fst t).

Definition ids (t : ComponentTable) : list Z := map fst t.

Definition has_id (k : Z) (t : ComponentTable) : bool :=
  existsb (Z.eqb k) (ids t).

(** The value of the first row of [t] with identifier [k]. *)
Fixpoint lookup (k : Z) (t : ComponentTable) : option float64 :=
  match t with
  | [] => None
  | (k', v) :: t' => if k' =? k then Some v else lookup k t'
  end.

(** The number of rows of [t] with identifier [k]. *)
Definition occurrences (k : Z) (t : ComponentTable) : nat :=
  List.length (matching k t).


(** The inner join in the words of the specification: the rows of the
    reference (first) table in their order, each kept when its identifier
    is found in every table, with the value found in each. *)
Fixpoint lookup_all (k : Z) (ts : list ComponentTable) : option (list float64) :=
  match ts with
  | [] => Some []
  | t :: ts' =>
      match lookup k t, lookup_all k ts' with
      | Some v, Some vs => Some (v :: vs)
      | _, _ => None
      end
  end.

Definition inner_join (ts : list ComponentTable) : DataFrame :=
  flat_map
    (fun r => match lookup_all (fst r) ts with
              | Some vs => [(fst r, vs)]
              | None => []
              end)
    (hd [] ts).

(** The cell of a float64 value: its rendering right-justified in 8
    columns, cut after the 8th character. *)
Definition float_field (x : float64) : string :=
  let formatted := Py.rjust 8 (Float.repr x) in
  if (8 <? String.length formatted)%nat then Py.take 8 formatted else formatted.

(** The two lines of a row, as text. *)
Definition elem_text (row : Series) : string :=
  Py.spaces 8 ++ "ELEM    " ++ Py.rjust 8 (Py.str_int (row_ELEM row)).

Definition value_text (row : Series) : string :=
  Py.spaces 8 ++ "VALUE   " ++ Py.join "" (map float_field (row_values row)).

Definition header_text : string := "INISTRS 100             0       ".

Definition newline : string := String "010" "".

(** The length of a line is a whole number of 8-character columns. *)
Definition whole_columns (line : string) : bool :=
  (String.length line mod 8 =? 0)%nat.

(** The lines after the header come in pairs, an ELEM line and a VALUE
    line, each behind an empty 8-character field. *)
Fixpoint record_lines (ls : list string) : bool :=
  match ls with
  | [] => true
  | e :: v :: rest =>
      String.prefix (Py.spaces 8 ++ "ELEM    ") e &&
      String.prefix (Py.spaces 8 ++ "VALUE   ") v &&
      record_lines rest
  | _ => false
  end.

(** The lines of a source that are not discarded: those that neither
    begin with the comment marker nor are blank. *)
Definition data_lines (lines : list string) : list string :=
  filter (fun l => negb (starts_comment l || blank l)) lines.

(** A tab or a printable ASCII character. *)
Definition printable (c : ascii) : bool :=
  Ascii.eqb c "009" ||
  ((32 <=? nat_of_ascii c)%nat && (nat_of_ascii c <=? 126)%nat).

Definition not_quote (c : ascii) : bool := negb (Ascii.eqb c "034").

(** A line of printable characters without a quote character before the
    comment marker. *)
Definition plain_line (line : string) : bool :=
  all_chars printable line && all_chars not_quote (strip_comment line).






Section ReaderVocabulary.

Variable to_float : string -> option float64.







End ReaderVocabulary.

(** ** Sample data *)

Module Sample.

Definition v1_5 : float64 := Finite false "15" 1.        (* 1.5 *)
Definition v1_0 : float64 := Finite false "1" 1.         (* 1.0 *)
Definition v2_0 : float64 := Finite false "2" 1.         (* 2.0 *)
Definition vm12 : float64 := Finite true "12345" 2.      (* -12.345 *)
Definition v_small : float64 := Finite false "1234" (-4). (* 1.234e-05 *)

(** Six tables without repeated identifiers; identifier 3 is missing from
    the fourth and identifier 4 from the first. *)
Definition tables : list ComponentTable :=
  [ [(1, v1_5); (2, vm12); (3, v2_0)];
    [(3, v1_0); (1, v2_0); (2, v1_5)];
    [(2, v1_0); (4, v1_0); (1, v1_0); (3, v1_0)];
    [(1, v_small); (2, v2_0)];
    [(1, v1_5); (2, v1_5); (3, v1_5)];
    [(3, v2_0); (2, v2_0); (1, v2_0)] ].


(** An identifier of 9 digits. *)
Definition wide : list ComponentTable :=
  repeat [(123456789, v1_5)] 6.

(** An identifier of 54 bits. *)
Definition huge : list ComponentTable :=
  repeat [(9007199254740993, v1_5)] 6.

(** Files in which the Y file repeats identifier 1. *)
Definition read_repeated (file : string) : ComponentTable :=
  if String.eqb file "StressE_TensorY_Ambient_MPa.fem"
  then [(1, v1_0); (1, v2_0)]
  else [(1, v1_5)].

(** Files without repeated identifiers. *)
Definition read_plain (file : string) : ComponentTable :=
  if String.eqb file "StressE_TensorX_Ambient_MPa.fem" then [(1, v1_5); (2, vm12)]
  else if String.eqb file "StressE_TensorY_Ambient_MPa.fem" then [(2, v1_0); (1, v2_0)]
  else if String.eqb file "StressE_TensorXY_c8_Ambient_MPa.fem" then [(1, v_small); (2, v1_5)]
  else [(1, v1_0); (2, v2_0)].

(** A numeric conversion defined on the fields of the sample source. *)
Definition to_float (s : string) : option float64 :=
  if String.eqb s "1.5" then Some v1_5
  else if String.eqb s "-12.345" then Some vm12
  else if String.eqb s "2.0" then Some v2_0
  else None.


End Sample.

(** ** Vocabulary of the further properties *)

(** [text.split("\n")]: the pieces between the newlines; [cur] is the
    piece being read. *)
Fixpoint split_go (s : string) (cur : string) : list string :=
  match s with
  | "" => [cur]
  | String c s' =>
      if Ascii.eqb c "010" then cur :: split_go s' ""
      else split_go s' (cur ++ String c "")
  end.

Definition split_lines (text : string) : list string := split_go text "".

Definition not_newline (c : ascii) : bool := negb (Ascii.eqb c "010").

(** A float64 whose digit string is made of digits. *)
Definition digits_ok (x : float64) : bool :=
  match x with
  | Finite _ digits _ => all_chars Py.is_digit digits
  | _ => true
  end.

(** The product of the numbers of occurrences of [k] in the tables. *)
Definition combinations (k : Z) (ts : list ComponentTable) : nat :=
  fold_right (fun t n => (occurrences k t * n)%nat) 1%nat ts.

(** The [i]-th 8-character column of a line. *)
Definition column (i : nat) (line : string) : string :=
  Py.take 8 (Py.drop (8 * i) line).

(** The lines after the header come in pairs: a line of at least 24
    characters and a line of exactly 64. *)
Fixpoint record_widths (ls : list string) : bool :=
  match ls with
  | [] => true
  | e :: v :: rest =>
      (24 <=? String.length e)%nat && (String.length v =? 64)%nat &&
      record_widths rest
  | _ => false
  end.

(** The same comment appended to every line of a source. *)
Definition with_comment (note : string) (line : string) : string :=
  line ++ String "$" note.

(** A line that is empty or holds something else than whitespace. *)
Definition empty_or_filled (line : string) : bool :=
  String.eqb line "" || negb (blank line).

(** A table whose identifiers lie in the int64 range. *)
Definition int64_ids (t : ComponentTable) : bool :=
  forallb (fun r => in_int64 (fst r)) t.

(** * Properties *)

(** ** The definitions on small inputs *)

Example format_field_keyword : format_field (VStr "ELEM") = Ok "ELEM    ".
Proof. reflexivity. Qed.

Example format_field_identifier : format_field (VInt 1234) = Ok "    1234".
Proof. reflexivity. Qed.

Example format_field_negative_identifier : format_field (VInt (-1234)) = Ok "   -1234".
Proof. reflexivity. Qed.

Example format_field_negative_value : format_field (VFloat Sample.vm12) = Ok " -12.345".
Proof. reflexivity. Qed.

Example format_field_cut_exponent : format_field (VFloat Sample.v_small) = Ok "1.234e-0".
Proof. reflexivity. Qed.

Example format_field_nan : format_field (VFloat NaN) = Ok "     nan".
Proof. reflexivity. Qed.

Example format_field_unsupported : format_field VOther = Raise ValueError.
Proof. reflexivity. Qed.

Example repr_forms :
  map Float.repr
    [ Finite false "1" (-4); Finite false "1" (-3); Finite false "1" 16;
      Finite false "1" 17; Finite false "15" 301; Finite true "5" 0;
      Finite false "0" 1; Finite false "30000000000000004" 0; Inf true ]
  = [ "1e-05"; "0.0001"; "1000000000000000.0"; "1e+16"; "1.5e+300"; "-0.5";
      "0.0"; "0.30000000000000004"; "-inf" ].
Proof. reflexivity. Qed.

Example int_of_str_padded : Py.int_of_str "     -42" = Some (-42).
Proof. reflexivity. Qed.

Example upcast_ties_to_even :
  map int_of_float64_of_int64
    [ 9007199254740992; 9007199254740993; 9007199254740994; 9007199254740995;
      -9007199254740995; 123456789 ]
  = [ 9007199254740992; 9007199254740992; 9007199254740994; 9007199254740996;
      -9007199254740996; 123456789 ].
Proof. reflexivity. Qed.

Example fields_of_line : fields "  2   -12.345 $ MPa" = ["2"; "-12.345"].
Proof. reflexivity. Qed.

Example tokenize_long_line :
  tokenize ["1 2.5"; "2 2.5 7"] = Raise ParserError.
Proof. reflexivity. Qed.

(** A line of whitespace followed by a comment is not skipped: it gives a
    row of missing values, and the identifiers become float64. *)
Example read_csv_indented_comment :
  read_csv (fun s => if String.eqb s "1" then Some Sample.v1_0
                     else if String.eqb s "2" then Some Sample.v2_0
                     else Sample.to_float s)
           ["1 1.5"; " $ note"; "2 2.0"] =
  Ok [ (CFloat Sample.v1_0, CFloat Sample.v1_5);
       (CFloat NaN, CFloat NaN);
       (CFloat Sample.v2_0, CFloat Sample.v2_0) ].
Proof. reflexivity. Qed.

Example read_csv_text_column :
  read_csv Sample.to_float ["1 1.5"; "2 abc"] =
  Ok [(CInt 1, CStr "1.5"); (CInt 2, CStr "abc")].
Proof. reflexivity. Qed.

Example main_on_sample :
  main Sample.read_plain =
  Ok ("INISTRS 100             0       " ++ newline ++
      "        ELEM           1" ++ newline ++
      "        VALUE        1.5     2.0     2.01.234e-0     1.0     1.0" ++ newline ++
      "        ELEM           2" ++ newline ++
      "        VALUE    -12.345     1.0     1.0     1.5     2.0     2.0").
Proof. reflexivity. Qed.

(** ** Strings *)

Section StringFacts.

Local Open Scope nat_scope.

Lemma length_append (s t : string) :
  String.length (s ++ t) = String.length s + String.length t.
Proof. induction s as [|c s IH]; simpl; [reflexivity | now rewrite IH]. Qed.

Lemma app_assoc_str (s t u : string) : (s ++ t) ++ u = s ++ t ++ u.
Proof. induction s as [|c s IH]; simpl; [reflexivity | now rewrite IH]. Qed.

Lemma app_empty_r (s : string) : s ++ "" = s.
Proof. induction s as [|c s IH]; simpl; [reflexivity | now rewrite IH]. Qed.

Lemma length_replicate n c : String.length (Py.replicate n c) = n.
Proof. induction n as [|n IH]; simpl; [reflexivity | now rewrite IH]. Qed.

Lemma length_spaces n : String.length (Py.spaces n) = n.
Proof. apply length_replicate. Qed.

Lemma length_take n s : String.length (Py.take n s) = Nat.min n (String.length s).
Proof.
  revert s; induction n as [|n IH]; intros [|c s]; simpl; try reflexivity.
  now rewrite IH.
Qed.

Lemma take_all n s : String.length s <= n -> Py.take n s = s.
Proof.
  revert s; induction n as [|n IH]; intros [|c s]; simpl; intros H;
    try reflexivity; try lia.
  rewrite IH; [reflexivity | lia].
Qed.

Lemma length_ljust w s :
  String.length (Py.ljust w s) = Nat.max w (String.length s).
Proof. unfold Py.ljust. rewrite length_append, length_spaces. lia. Qed.

Lemma length_rjust w s :
  String.length (Py.rjust w s) = Nat.max w (String.length s).
Proof. unfold Py.rjust. rewrite length_append, length_spaces. lia. Qed.

Lemma rjust_long w s : w <= String.length s -> Py.rjust w s = s.
Proof.
  intros H. unfold Py.rjust.
  replace (w - String.length s) with 0 by lia. reflexivity.
Qed.

Lemma all_chars_app p s t :
  all_chars p (s ++ t) = all_chars p s && all_chars p t.
Proof.
  induction s as [|c s IH]; simpl; [reflexivity|].
  now rewrite IH, andb_assoc.
Qed.

Lemma prefix_app s t : String.prefix s (s ++ t) = true.
Proof.
  induction s as [|c s IH]; simpl.
  - now destruct t.
  - destruct (ascii_dec c c) as [_|N]; [exact IH | now elim N].
Qed.

End StringFacts.

(** ** Decimal rendering of integers *)

Section Decimal.

Lemma digit_cases d : 0 <= d < 10 ->
  d = 0 \/ d = 1 \/ d = 2 \/ d = 3 \/ d = 4 \/ d = 5 \/ d = 6 \/ d = 7 \/
  d = 8 \/ d = 9.
Proof. lia. Qed.

Ltac by_digit d H :=
  destruct (digit_cases d H) as [->|[->|[->|[->|[->|[->|[->|[->|[->| ->]]]]]]]]];
  reflexivity.

Lemma is_digit_char d : 0 <= d < 10 -> Py.is_digit (Py.digit_char d) = true.
Proof. intros H. by_digit d H. Qed.

Lemma digit_val_char d : 0 <= d < 10 -> Py.digit_val (Py.digit_char d) = d.
Proof. intros H. by_digit d H. Qed.

Lemma is_digit_not_space c : Py.is_digit c = true -> not_space c = true.
Proof.
  unfold not_space. destruct (Ascii.eqb_spec c " ") as [->|]; [discriminate | reflexivity].
Qed.

Lemma is_digit_not_sign c :
  Py.is_digit c = true -> Ascii.eqb c "-" = false /\ Ascii.eqb c "+" = false.
Proof.
  intros H. split.
  - destruct (Ascii.eqb_spec c "-") as [->|]; [discriminate | reflexivity].
  - destruct (Ascii.eqb_spec c "+") as [->|]; [discriminate | reflexivity].
Qed.

(** What [digits_go] produces when the fuel covers the digits of [n]:
    [k >= 1] digits [ds] in front of the accumulator, which read back as
    [n], [k] being the number of decimal digits of [n]. *)
Lemma digits_go_spec fuel : forall n acc,
  0 <= n < 10 ^ Z.of_nat fuel -> (0 < fuel)%nat ->
  exists ds,
    Py.digits_go fuel n acc = ds ++ acc /\
    all_chars Py.is_digit ds = true /\
    (0 < String.length ds)%nat /\
    (forall a rest,
        Py.parse_digits (ds ++ rest) a =
        Py.parse_digits rest (a * 10 ^ Z.of_nat (String.length ds) + n)) /\
    n < 10 ^ Z.of_nat (String.length ds) /\
    (10 ^ (Z.of_nat (String.length ds) - 1) <= n \/
     (n = 0 /\ String.length ds = 1%nat)).
Proof.
  induction fuel as [|fuel IH]; intros n acc Hn Hf; [lia|].
  assert (Hd : 0 <= n mod 10 < 10) by (apply Z.mod_pos_bound; lia).
  pose proof (Z.div_mod n 10 ltac:(lia)) as Hdm.
  cbn [Py.digits_go].
  set (c := Py.digit_char (n mod 10)).
  assert (Hc : Py.is_digit c = true) by (apply is_digit_char; exact Hd).
  assert (Hv : Py.digit_val c = n mod 10) by (apply digit_val_char; exact Hd).
  destruct (Z.eqb_spec (n / 10) 0) as [Hq|Hq].
  - exists (String c "").
    cbn [String.length String.append all_chars Py.parse_digits].
    rewrite Hc, Hv.
    repeat split.
    + lia.
    + intros a rest. f_equal. change (Z.of_nat 1) with 1. lia.
    + change (Z.of_nat 1) with 1. lia.
    + destruct (Z.eq_dec n 0); [right; auto | left].
      change (Z.of_nat 1 - 1) with 0. lia.
  - assert (Hfuel : (0 < fuel)%nat).
    { destruct fuel; [|lia]. exfalso. apply Hq. apply Z.div_small.
      change (10 ^ Z.of_nat 1) with 10 in Hn. lia. }
    assert (Hn' : 0 <= n / 10 < 10 ^ Z.of_nat fuel).
    { split; [apply Z.div_pos; lia|].
      apply Z.div_lt_upper_bound; [lia|].
      rewrite Nat2Z.inj_succ, Z.pow_succ_r in Hn by lia. lia. }
    destruct (IH (n / 10) (String c acc) Hn' Hfuel)
      as (ds & Hgo & Hall & Hlen & Hparse & Hub & Hlb).
    exists (ds ++ String c "").
    assert (Hk : Z.of_nat (String.length (ds ++ String c ""))
                 = Z.of_nat (String.length ds) + 1).
    { rewrite length_append. cbn [String.length]. lia. }
    assert (Hpos : 0 < n / 10).
    { assert (0 <= n / 10) by (apply Z.div_pos; lia). lia. }
    repeat split.
    + rewrite Hgo, app_assoc_str. reflexivity.
    + rewrite all_chars_app, Hall. cbn [all_chars]. now rewrite Hc.
    + rewrite length_append. cbn [String.length]. lia.
    + intros a rest. rewrite app_assoc_str, Hparse.
      cbn [String.append Py.parse_digits].
      rewrite Hc, Hv. f_equal. rewrite Hk, Z.pow_add_r by lia. lia.
    + rewrite Hk, Z.pow_add_r by lia. lia.
    + left. rewrite Hk.
      replace (Z.of_nat (String.length ds) + 1 - 1)
        with (Z.succ (Z.of_nat (String.length ds) - 1)) by lia.
      rewrite Z.pow_succ_r by lia.
      destruct Hlb as [Hlb|[Hz _]]; lia.
Qed.

(** The fuel of [str_nat] is enough. *)
Lemma str_nat_fuel n : 0 <= n -> n < 10 ^ Z.of_nat (S (Z.to_nat (Z.log2 n))).
Proof.
  intros Hn.
  rewrite Nat2Z.inj_succ, Z2Nat.id by apply Z.log2_nonneg.
  destruct (Z.eq_dec n 0) as [->|Hz].
  - reflexivity.
  - pose proof (Z.log2_spec n ltac:(lia)) as [_ Hlt].
    eapply Z.lt_le_trans; [exact Hlt|].
    apply Z.pow_le_mono_l. lia.
Qed.

Lemma str_nat_spec n : 0 <= n ->
  all_chars Py.is_digit (Py.str_nat n) = true /\
  (0 < String.length (Py.str_nat n))%nat /\
  Py.parse_digits (Py.str_nat n) 0 = Some n /\
  n < 10 ^ Z.of_nat (String.length (Py.str_nat n)) /\
  (10 ^ (Z.of_nat (String.length (Py.str_nat n)) - 1) <= n \/
   (n = 0 /\ String.length (Py.str_nat n) = 1%nat)).
Proof.
  intros Hn. unfold Py.str_nat.
  destruct (digits_go_spec (S (Z.to_nat (Z.log2 n))) n ""
              (conj Hn (str_nat_fuel n Hn)) ltac:(lia))
    as (ds & Hgo & Hall & Hlen & Hparse & Hub & Hlb).
  rewrite Hgo, app_empty_r.
  repeat split; auto.
  specialize (Hparse 0 ""). rewrite app_empty_r in Hparse.
  rewrite Hparse. cbn [Py.parse_digits]. f_equal; lia.
Qed.

(** The number of digits against the magnitude. *)
Lemma length_str_nat_le n k : 0 <= n -> (0 < k)%nat ->
  (String.length (Py.str_nat n) <= k)%nat <-> n < 10 ^ Z.of_nat k.
Proof.
  intros Hn Hk.
  destruct (str_nat_spec n Hn) as (_ & Hlen & _ & Hub & Hlb).
  split; intros H.
  - eapply Z.lt_le_trans; [exact Hub|].
    apply Z.pow_le_mono_r; lia.
  - destruct Hlb as [Hlb|[_ Hone]]; [|lia].
    destruct (le_lt_dec (String.length (Py.str_nat n)) k) as [|Hgt]; [assumption|].
    exfalso.
    assert (10 ^ Z.of_nat k <= 10 ^ (Z.of_nat (String.length (Py.str_nat n)) - 1))
      by (apply Z.pow_le_mono_r; lia).
    lia.
Qed.

End Decimal.

Section IntFields.

Lemma str_int_nonneg n : 0 <= n -> Py.str_int n = Py.str_nat n.
Proof. intros H. unfold Py.str_int. now destruct (Z.ltb_spec n 0); [lia|]. Qed.

Lemma str_int_neg n : n < 0 -> Py.str_int n = String "-" (Py.str_nat (- n)).
Proof. intros H. unfold Py.str_int. now destruct (Z.ltb_spec n 0); [|lia]. Qed.

Lemma str_int_no_space n : all_chars not_space (Py.str_int n) = true.
Proof.
  assert (Hdig : forall s, all_chars Py.is_digit s = true ->
                           all_chars not_space s = true).
  { induction s as [|c s IH]; cbn [all_chars]; [reflexivity|].
    intros H. apply andb_true_iff in H as [Hc Hs].
    now rewrite (is_digit_not_space c Hc), IH. }
  destruct (Z.lt_ge_cases n 0) as [Hn|Hn].
  - rewrite str_int_neg by assumption. cbn [all_chars].
    apply andb_true_iff. split; [reflexivity|].
    apply Hdig. apply (str_nat_spec (- n)). lia.
  - rewrite str_int_nonneg by assumption.
    apply Hdig. now apply str_nat_spec.
Qed.

(** [str] and [int] are inverse on integers. *)
Lemma parse_int_str_int n : Py.parse_int (Py.str_int n) = Some n.
Proof.
  destruct (Z.lt_ge_cases n 0) as [Hn|Hn].
  - rewrite str_int_neg by assumption.
    destruct (str_nat_spec (- n) ltac:(lia)) as (_ & Hlen & Hparse & _).
    cbn [Py.parse_int]. change (Ascii.eqb "-" "-") with true. cbv iota.
    destruct (Py.str_nat (- n)) as [|c s] eqn:E; [cbn in Hlen; lia|].
    rewrite Hparse. cbn [option_map]. f_equal. lia.
  - rewrite str_int_nonneg by assumption.
    destruct (str_nat_spec n Hn) as (Hall & Hlen & Hparse & _).
    destruct (Py.str_nat n) as [|c s] eqn:E; [cbn in Hlen; lia|].
    cbn [all_chars] in Hall. apply andb_true_iff in Hall as [Hc _].
    destruct (is_digit_not_sign c Hc) as [Hm Hp].
    cbn [Py.parse_int]. rewrite Hm, Hp. exact Hparse.
Qed.

Lemma lstrip_spaces k s : Py.lstrip (Py.spaces k ++ s) = Py.lstrip s.
Proof. induction k as [|k IH]; [reflexivity | exact IH]. Qed.

Lemma lstrip_no_space s : all_chars not_space s = true -> Py.lstrip s = s.
Proof.
  destruct s as [|c s]; [reflexivity|]. cbn [all_chars Py.lstrip].
  intros H. apply andb_true_iff in H as [Hc _].
  unfold not_space in Hc. now destruct (Ascii.eqb c " ").
Qed.

Lemma rstrip_no_space s : all_chars not_space s = true -> Py.rstrip s = s.
Proof.
  induction s as [|c s IH]; [reflexivity|]. cbn [all_chars Py.rstrip].
  intros H. apply andb_true_iff in H as [Hc Hs].
  rewrite (IH Hs). unfold not_space in Hc.
  destruct s; [now destruct (Ascii.eqb c " ") | reflexivity].
Qed.

Lemma int_of_str_rjust w n : Py.int_of_str (Py.rjust w (Py.str_int n)) = Some n.
Proof.
  unfold Py.int_of_str, Py.rjust.
  rewrite lstrip_spaces, lstrip_no_space, rstrip_no_space
    by apply str_int_no_space.
  apply parse_int_str_int.
Qed.

(** An integer renders in at most [k] characters exactly when it lies in
    the range of [k] digits, one of them taken by the sign if negative. *)
Lemma length_str_int_le n k : (1 < k)%nat ->
  (String.length (Py.str_int n) <= k)%nat <->
  - 10 ^ (Z.of_nat k - 1) < n < 10 ^ Z.of_nat k.
Proof.
  intros Hk.
  assert (Hp : 0 < 10 ^ (Z.of_nat k - 1)) by (apply Z.pow_pos_nonneg; lia).
  assert (Hq : 0 < 10 ^ Z.of_nat k) by (apply Z.pow_pos_nonneg; lia).
  destruct (Z.lt_ge_cases n 0) as [Hn|Hn].
  - rewrite str_int_neg by assumption. cbn [String.length].
    pose proof (length_str_nat_le (- n) (k - 1) ltac:(lia) ltac:(lia)) as H.
    replace (Z.of_nat (k - 1)) with (Z.of_nat k - 1) in H by lia.
    split; intros H'.
    + assert (- n < 10 ^ (Z.of_nat k - 1)) by (apply H; lia). lia.
    + assert (String.length (Py.str_nat (- n)) <= k - 1)%nat by (apply H; lia).
      lia.
  - rewrite str_int_nonneg by assumption.
    pose proof (length_str_nat_le n k Hn ltac:(lia)) as H.
    split; intros H'.
    + split; [lia | now apply H].
    + apply H. lia.
Qed.

End IntFields.

(** ** The float64 round trip of an element identifier *)

Section Upcast.

(** Identifiers of at most 53 bits survive the upcast of [iterrows]. *)
Lemma int_of_float64_exact n :
  Z.abs n < 2 ^ 53 -> int_of_float64_of_int64 n = n.
Proof.
  intros H. unfold int_of_float64_of_int64.
  destruct (Z.leb_spec (Z.log2 (Z.abs n) - 52) 0) as [_|Hsh]; [reflexivity|].
  exfalso.
  assert (Hlog : Z.log2 (Z.abs n) < 53).
  { destruct (Z.eq_dec (Z.abs n) 0) as [->|Hz]; [reflexivity|].
    apply Z.log2_lt_pow2; lia. }
  lia.
Qed.

(** Larger identifiers may change, but stay at least as large as [2^53]. *)
Lemma int_of_float64_large n :
  2 ^ 53 <= Z.abs n ->
  2 ^ 53 <= Z.abs (int_of_float64_of_int64 n).
Proof.
  intros H. unfold int_of_float64_of_int64.
  set (a := Z.abs n) in *.
  assert (Hlog : 53 <= Z.log2 a) by (apply Z.log2_le_pow2; lia).
  set (sh := Z.log2 a - 52).
  destruct (Z.leb_spec sh 0) as [Hsh|Hsh]; [subst sh; lia|].
  set (q := Z.shiftr a sh).
  match goal with
  | |- context [if ?b then q + 1 else q] => set (q' := if b then q + 1 else q)
  end.
  assert (Hq : 2 ^ 52 <= q).
  { subst q. rewrite Z.shiftr_div_pow2 by lia.
    apply Z.div_le_lower_bound; [apply Z.pow_pos_nonneg; lia|].
    rewrite Z.mul_comm, <- Z.pow_add_r by lia.
    replace (52 + sh) with (Z.log2 a) by (subst sh; lia).
    apply Z.log2_spec. lia. }
  assert (Hq' : q <= q') by (subst q'; match goal with |- context [if ?b then _ else _] => destruct b end; lia).
  rewrite Z.shiftl_mul_pow2 by lia.
  assert (Hpow : 2 <= 2 ^ sh).
  { change 2 with (2 ^ 1) at 1. apply Z.pow_le_mono_r; lia. }
  rewrite Z.abs_mul.
  assert (Hs : Z.abs (Z.sgn n) = 1) by (subst a; lia).
  rewrite Hs, Z.mul_1_l, Z.abs_eq by nia.
  change (2 ^ 53) with (2 ^ 52 * 2). nia.
Qed.

Lemma int_of_float64_sign n :
  (0 <= n -> 0 <= int_of_float64_of_int64 n) /\
  (n <= 0 -> int_of_float64_of_int64 n <= 0).
Proof.
  unfold int_of_float64_of_int64.
  destruct (Z.leb_spec (Z.log2 (Z.abs n) - 52) 0) as [_|Hsh]; [lia|].
  set (sh := Z.log2 (Z.abs n) - 52) in *.
  set (q := Z.shiftr (Z.abs n) sh).
  match goal with
  | |- context [if ?b then q + 1 else q] => set (q' := if b then q + 1 else q)
  end.
  assert (Hq : 0 <= q) by (subst q; apply Z.shiftr_nonneg; lia).
  assert (Hq' : 0 <= q') by (subst q'; match goal with |- context [if ?b then _ else _] => destruct b end; lia).
  assert (Hs : 0 <= Z.shiftl q' sh) by (apply Z.shiftl_nonneg; lia).
  split; intros H; nia.
Qed.

(** The round trip moves an identifier by at most half of the spacing
    [2^sh] of the float64 values around it, onto a multiple of that
    spacing. *)
Lemma int_of_float64_nearest n :
  let sh := Z.log2 (Z.abs n) - 52 in
  0 < sh ->
  (2 ^ sh | int_of_float64_of_int64 n) /\
  2 * Z.abs (int_of_float64_of_int64 n - n) <= 2 ^ sh.
Proof.
  intros sh Hsh. unfold int_of_float64_of_int64. fold sh.
  destruct (Z.leb_spec sh 0) as [|_]; [lia|].
  set (a := Z.abs n).
  set (q := Z.shiftr a sh).
  set (r := Z.land a (Z.ones sh)).
  set (half := Z.shiftl 1 (sh - 1)).
  assert (Hp : 0 < 2 ^ sh) by (apply Z.pow_pos_nonneg; lia).
  assert (Hq : q = a / 2 ^ sh) by (subst q; apply Z.shiftr_div_pow2; lia).
  assert (Hr : r = a mod 2 ^ sh) by (subst r; apply Z.land_ones; lia).
  assert (Hh : 2 * half = 2 ^ sh).
  { subst half. rewrite Z.shiftl_mul_pow2, Z.mul_1_l by lia.
    replace sh with (Z.succ (sh - 1)) at 2 by lia.
    rewrite Z.pow_succ_r by lia. reflexivity. }
  pose proof (Z.div_mod a (2 ^ sh) ltac:(lia)) as Hdm.
  pose proof (Z.mod_pos_bound a (2 ^ sh) Hp) as Hrb.
  rewrite <- Hq, <- Hr in Hdm. rewrite <- Hr in Hrb.
  match goal with
  | |- context [if ?b then q + 1 else q] => set (q' := if b then q + 1 else q)
  end.
  rewrite Z.shiftl_mul_pow2 by lia.
  split.
  - exists (Z.sgn n * q'). ring.
  - assert (Hn : n = Z.sgn n * a) by (subst a; lia).
    assert (Hs : Z.abs (Z.sgn n) <= 1) by lia.
    replace (Z.sgn n * (q' * 2 ^ sh) - n) with (Z.sgn n * (q' * 2 ^ sh - a))
      by (rewrite Hn at 3; ring).
    rewrite Z.abs_mul.
    assert (Hd : 2 * Z.abs (q' * 2 ^ sh - a) <= 2 ^ sh).
    { subst q'.
      destruct (Z.ltb_spec half r) as [Hlt|Hge]; cbn [orb].
      - nia.
      - destruct (Z.eqb_spec r half) as [He|Hne]; cbn [andb].
        + destruct (Z.odd q); nia.
        + nia. }
    assert (0 <= Z.abs (q' * 2 ^ sh - a)) by apply Z.abs_nonneg.
    nia.
Qed.

(** An identifier too wide for an 8-character field is still too wide
    after the round trip. *)
Lemma int_of_float64_wide n :
  (8 < String.length (Py.str_int n))%nat ->
  (8 < String.length (Py.str_int (int_of_float64_of_int64 n)))%nat.
Proof.
  intros H.
  destruct (Z.lt_ge_cases (Z.abs n) (2 ^ 53)) as [Hs|Hl].
  - now rewrite int_of_float64_exact.
  - pose proof (int_of_float64_large n Hl) as Hbig.
    pose proof (int_of_float64_sign n) as [Hpos Hneg].
    destruct (le_lt_dec (String.length (Py.str_int (int_of_float64_of_int64 n))) 8)
      as [Hle|]; [|assumption].
    exfalso.
    apply (length_str_int_le _ 8 ltac:(lia)) in Hle.
    change (10 ^ (Z.of_nat 8 - 1)) with 10000000 in Hle.
    change (10 ^ Z.of_nat 8) with 100000000 in Hle.
    change (2 ^ 53) with 9007199254740992 in *.
    lia.
Qed.

End Upcast.

(** ** The formatter *)

Section Formatter.

Lemma format_field_float x : format_field (VFloat x) = Ok (float_field x).
Proof. unfold format_field, float_field. now destruct (Float.ltb0 x). Qed.

Lemma length_float_field x : String.length (float_field x) = 8%nat.
Proof.
  unfold float_field. cbv zeta.
  destruct (Nat.ltb_spec 8 (String.length (Py.rjust 8 (Float.repr x)))) as [H|H].
  - rewrite length_take. lia.
  - rewrite length_rjust in *. lia.
Qed.

Lemma mapM_format_floats vs :
  mapM (fun v => format_field (VFloat v)) vs = Ok (map float_field vs).
Proof.
  induction vs as [|v vs IH]; [reflexivity|].
  cbn [mapM map]. rewrite format_field_float, IH. reflexivity.
Qed.

Lemma join_empty_cons s ls : Py.join "" (s :: ls) = s ++ Py.join "" ls.
Proof.
  unfold Py.join. destruct ls as [|t ls]; cbn [String.concat].
  - now rewrite app_empty_r.
  - reflexivity.
Qed.

Lemma length_join_fields vs :
  String.length (Py.join "" (map float_field vs)) = (8 * List.length vs)%nat.
Proof.
  induction vs as [|v vs IH]; [reflexivity|].
  cbn [map]. rewrite join_empty_cons, length_append, length_float_field, IH.
  cbn [List.length]. lia.
Qed.

Lemma elem_line_text row : elem_line row = Ok (elem_text row).
Proof. reflexivity. Qed.

Lemma value_line_text row : value_line row = Ok (value_text row).
Proof.
  unfold value_line, value_text. cbn [format_field bind].
  rewrite mapM_format_floats. reflexivity.
Qed.

Lemma header_line_text : header_line = Ok header_text.
Proof. reflexivity. Qed.

Lemma row_lines_text rows :
  row_lines rows = Ok (flat_map (fun row => [elem_text row; value_text row]) rows).
Proof.
  induction rows as [|row rows IH]; [reflexivity|].
  cbn [row_lines flat_map]. rewrite elem_line_text, value_line_text, IH.
  reflexivity.
Qed.

(** The formatter never raises on a joined frame. *)
Lemma output_lines_text df :
  output_lines df =
  Ok (header_text :: flat_map (fun row => [elem_text row; value_text row])
                              (iterrows df)).
Proof.
  unfold output_lines. rewrite header_line_text, row_lines_text. reflexivity.
Qed.

Lemma length_elem_text row :
  String.length (elem_text row) =
  (16 + Nat.max 8 (String.length (Py.str_int (row_ELEM row))))%nat.
Proof.
  unfold elem_text. rewrite !length_append, length_spaces, length_rjust.
  reflexivity.
Qed.

Lemma length_value_text row :
  String.length (value_text row) = (16 + 8 * List.length (row_values row))%nat.
Proof.
  unfold value_text. rewrite !length_append, length_spaces, length_join_fields.
  reflexivity.
Qed.

End Formatter.

(** ** C2, C8, C10, C4: single fields and the header *)

(** C2.  The cell of a float64 value has exactly 8 characters: the
    rendering itself when it has 8 characters, its first 8 characters when
    it is longer (nothing is rounded and nothing is raised), and the
    rendering behind leading spaces when it is shorter. *)
Theorem float_field_is_8_characters (x : float64) :
  exists cell,
    format_field (VFloat x) = Ok cell /\
    String.length cell = 8%nat /\
    cell = match Nat.compare (String.length (Float.repr x)) 8 with
           | Eq => Float.repr x
           | Gt => Py.take 8 (Float.repr x)
           | Lt => Py.spaces (8 - String.length (Float.repr x)) ++ Float.repr x
           end.
Proof.
  exists (float_field x).
  split; [apply format_field_float|].
  split; [apply length_float_field|].
  unfold float_field. cbv zeta.
  destruct (Nat.compare_spec (String.length (Float.repr x)) 8) as [E|L|G].
  - rewrite rjust_long by lia.
    destruct (Nat.ltb_spec 8 (String.length (Float.repr x))); [lia | reflexivity].
  - destruct (Nat.ltb_spec 8 (String.length (Py.rjust 8 (Float.repr x)))) as [H|H].
    + rewrite length_rjust in H. lia.
    + reflexivity.
  - rewrite rjust_long by lia.
    destruct (Nat.ltb_spec 8 (String.length (Float.repr x))); [reflexivity | lia].
Qed.

(** C8.  An integer whose rendering fits in 8 characters is formatted as
    an 8-character field from which [int] reads the same integer back. *)
Theorem int_field_round_trip (n : Z) :
  (String.length (Py.str_int n) <= 8)%nat ->
  exists cell,
    format_field (VInt n) = Ok cell /\
    String.length cell = 8%nat /\
    Py.int_of_str cell = Some n.
Proof.
  intros H. exists (Py.rjust 8 (Py.str_int n)).
  split; [reflexivity|].
  split; [rewrite length_rjust; lia | apply int_of_str_rjust].
Qed.

(** C8 at [-1234567], whose rendering has 8 characters. *)
Lemma int_field_round_trip_witness :
  (String.length (Py.str_int (-1234567)) <= 8)%nat /\
  exists cell,
    format_field (VInt (-1234567)) = Ok cell /\
    String.length cell = 8%nat /\
    Py.int_of_str cell = Some (-1234567).
Proof.
  assert (H : (String.length (Py.str_int (-1234567)) <= 8)%nat)
    by (vm_compute; lia).
  split; [exact H | exact (int_field_round_trip (-1234567) H)].
Defined.

(** C10.  An integer whose rendering is longer than 8 characters is
    returned in full by [format_field], and an element identifier of that
    size gives an ELEM line longer than the three 8-character columns. *)
Theorem int_field_never_truncated (n : Z) :
  (8 < String.length (Py.str_int n))%nat ->
  format_field (VInt n) = Ok (Py.str_int n) /\
  forall vals, exists line,
    map elem_line (iterrows [(n, vals)]) = [Ok line] /\
    (24 < String.length line)%nat.
Proof.
  intros H. split.
  - cbn [format_field]. rewrite rjust_long by lia. reflexivity.
  - intros vals.
    exists (elem_text (mkSeries (int_of_float64_of_int64 n) vals)).
    split; [reflexivity|].
    rewrite length_elem_text. cbn [row_ELEM].
    pose proof (int_of_float64_wide n H). lia.
Qed.

(** C10 at [123456789], whose rendering has 9 characters. *)
Lemma int_field_never_truncated_witness :
  (8 < String.length (Py.str_int 123456789))%nat /\
  format_field (VInt 123456789) = Ok (Py.str_int 123456789) /\
  forall vals, exists line,
    map elem_line (iterrows [(123456789, vals)]) = [Ok line] /\
    (24 < String.length line)%nat.
Proof.
  assert (H : (8 < String.length (Py.str_int 123456789))%nat)
    by (vm_compute; lia).
  split; [exact H | exact (int_field_never_truncated 123456789 H)].
Defined.

(** C4, as the claim states it: the second field of the header is not the
    right-justified rendering of 100, whatever follows it. *)
Lemma header_subcase_not_right_justified :
  ~ exists rest,
      header_line = Ok (Py.ljust 8 "INISTRS" ++ Py.rjust 8 (Py.str_int 100) ++ rest).
Proof.
  intros [rest H]. vm_compute in H. discriminate H.
Qed.

(** C4, amended.  The first line of every output is the header, four
    fields without separators, each a text token left-justified in 8
    characters: ["INISTRS"], ["100"], an empty field and ["0"]. *)
Theorem header_is_four_text_fields (df : DataFrame) :
  exists rest,
    output_lines df =
    Ok ((Py.ljust 8 "INISTRS" ++ Py.ljust 8 "100" ++ Py.ljust 8 "" ++ Py.ljust 8 "0")
          :: rest) /\
    Py.ljust 8 "INISTRS" ++ Py.ljust 8 "100" ++ Py.ljust 8 "" ++ Py.ljust 8 "0"
    = "INISTRS 100             0       ".
Proof.
  eexists. split; [apply output_lines_text | reflexivity].
Qed.

(** ** The joiner *)

Section Joiner.

Lemma in_matching k r t : In r (matching k t) <-> In r t /\ fst r = k.
Proof.
  unfold matching. rewrite filter_In. now rewrite Z.eqb_eq.
Qed.

Lemma matching_absent k t : ~ In k (ids t) -> matching k t = [].
Proof.
  induction t as [|[k' v] t IH]; [reflexivity|].
  cbn [ids map fst]. intros H. cbn [matching filter fst].
  destruct (Z.eqb_spec k' k) as [->|_].
  - elim H. now left.
  - apply IH. intros Hin. apply H. now right.
Qed.

Lemma lookup_absent k t : ~ In k (ids t) -> lookup k t = None.
Proof.
  induction t as [|[k' v] t IH]; [reflexivity|].
  cbn [ids map fst lookup]. intros H.
  destruct (Z.eqb_spec k' k) as [->|_].
  - elim H. now left.
  - apply IH. intros Hin. apply H. now right.
Qed.

Lemma lookup_In k v t : lookup k t = Some v -> In (k, v) t.
Proof.
  induction t as [|[k' v'] t IH]; [discriminate|].
  cbn [lookup]. destruct (Z.eqb_spec k' k) as [->|_].
  - intros [= ->]. now left.
  - intros H. right. now apply IH.
Qed.

Lemma lookup_has_id k t : has_id k t = true <-> exists v, lookup k t = Some v.
Proof.
  unfold has_id. induction t as [|[k' v'] t IH].
  - cbn. split; [discriminate | intros [v H]; discriminate].
  - cbn [ids map fst existsb lookup]. rewrite orb_true_iff, IH.
    rewrite (Z.eqb_sym k k').
    destruct (Z.eqb_spec k' k) as [->|N].
    + split; [eauto | now left].
    + split; [now intros [?|?] | now right].
Qed.

Lemma has_id_In k t : has_id k t = true <-> In k (ids t).
Proof.
  unfold has_id. rewrite existsb_exists. split.
  - intros (x & Hx & E). apply Z.eqb_eq in E. now subst.
  - intros H. exists k. split; [assumption | apply Z.eqb_refl].
Qed.

(** In a table without repeated identifiers an identifier matches at most
    one row, the one [lookup] finds. *)
Lemma matching_unique k t :
  unique_ids t ->
  matching k t = match lookup k t with Some v => [(k, v)] | None => [] end.
Proof.
  unfold unique_ids.
  induction t as [|[k' v] t IH]; [reflexivity|].
  cbn [map fst]. intros H. inversion H as [|? ? Hnotin Hnodup]; subst.
  cbn [matching filter fst lookup].
  destruct (Z.eqb_spec k' k) as [->|_].
  - fold (matching k t). now rewrite matching_absent.
  - apply IH, Hnodup.
Qed.

Lemma unique_values k v v' t :
  unique_ids t -> In (k, v) t -> In (k, v') t -> v = v'.
Proof.
  intros Hu H H'.
  assert (Hm : In (k, v) (matching k t)) by (apply in_matching; auto).
  assert (Hm' : In (k, v') (matching k t)) by (apply in_matching; auto).
  rewrite (matching_unique k t Hu) in Hm, Hm'.
  destruct (lookup k t) as [w|]; [|contradiction].
  destruct Hm as [[= <-]|[]]. destruct Hm' as [[= <-]|[]]. reflexivity.
Qed.

(** Membership in a merge, whatever the tables. *)
Lemma in_merge k vals left right :
  In (k, vals) (merge left right) <->
  exists vl v, In (k, vl) left /\ In (k, v) right /\ vals = (vl ++ [v])%list.
Proof.
  unfold merge. rewrite in_flat_map. split.
  - intros ([kl vl] & Hl & Hin). cbn [fst snd] in Hin.
    apply in_map_iff in Hin as ([kr v] & [= <- <-] & Hr).
    apply in_matching in Hr as [Hr E]. cbn [fst] in E. subst kr.
    exists vl, v. auto.
  - intros (vl & v & Hl & Hr & ->).
    exists (k, vl). split; [assumption|]. cbn [fst snd].
    apply in_map_iff. exists (k, v). split; [reflexivity|].
    apply in_matching. auto.
Qed.

Lemma merge_unique left t :
  unique_ids t ->
  merge left t =
  flat_map (fun l => match lookup (fst l) t with
                     | Some v => [(fst l, (snd l ++ [v])%list)]
                     | None => []
                     end) left.
Proof.
  intros Hu. unfold merge. apply flat_map_ext. intros l.
  rewrite (matching_unique _ _ Hu). now destruct (lookup (fst l) t).
Qed.

Lemma fold_merge_unique ts :
  Forall unique_ids ts ->
  forall acc,
    fold_left merge ts acc =
    flat_map (fun l => match lookup_all (fst l) ts with
                       | Some vs => [(fst l, (snd l ++ vs)%list)]
                       | None => []
                       end) acc.
Proof.
  induction 1 as [|t ts Hu Hall IH]; intros acc.
  - cbn [fold_left lookup_all].
    induction acc as [|[k vl] acc IHacc]; [reflexivity|].
    cbn [flat_map fst snd]. rewrite <- IHacc, app_nil_r. reflexivity.
  - cbn [fold_left]. rewrite IH, (merge_unique _ _ Hu).
    induction acc as [|[k vl] acc IHacc]; [reflexivity|].
    cbn [flat_map fst snd lookup_all]. rewrite flat_map_app, IHacc.
    f_equal.
    destruct (lookup k t) as [v|]; [|reflexivity].
    cbn [flat_map fst snd]. rewrite app_nil_r.
    destruct (lookup_all k ts) as [vs|]; [|reflexivity].
    now rewrite <- app_assoc.
Qed.

(** The merges of the script compute the inner join of the specification
    when no table repeats an identifier. *)
Lemma combined_data_inner_join ts :
  Forall unique_ids ts -> combined_data ts = inner_join ts.
Proof.
  intros H. unfold combined_data, inner_join, select_ELEM.
  rewrite (fold_merge_unique ts H).
  induction (hd [] ts) as [|[k v] t IH]; [reflexivity|].
  cbn [map flat_map fst snd]. rewrite IH.
  now destruct (lookup_all k ts).
Qed.

Lemma lookup_all_present k ts :
  forallb (has_id k) ts = true <-> exists vs, lookup_all k ts = Some vs.
Proof.
  induction ts as [|t ts IH].
  - cbn. split; eauto.
  - cbn [forallb lookup_all]. rewrite andb_true_iff, IH, lookup_has_id.
    split.
    + intros [[v ->] [vs ->]]. eauto.
    + destruct (lookup k t) as [v|]; [|intros [? [=]]].
      destruct (lookup_all k ts) as [vs|]; [eauto | intros [? [=]]].
Qed.

Lemma lookup_all_rows k ts vs :
  lookup_all k ts = Some vs -> Forall2 (fun t v => In (k, v) t) ts vs.
Proof.
  revert vs. induction ts as [|t ts IH]; intros vs.
  - intros [= <-]. constructor.
  - cbn [lookup_all].
    destruct (lookup k t) as [v|] eqn:E; [|discriminate].
    destruct (lookup_all k ts) as [ws|]; [|discriminate].
    intros [= <-]. constructor; [now apply lookup_In | now apply IH].
Qed.

Lemma ids_inner_join ts :
  map fst (inner_join ts) =
  filter (fun k => forallb (has_id k) ts) (ids (hd [] ts)).
Proof.
  unfold inner_join, ids.
  induction (hd [] ts) as [|[k v] t IH]; [reflexivity|].
  cbn [flat_map map fst filter]. rewrite map_app, IH.
  destruct (lookup_all k ts) as [vs|] eqn:E.
  - assert (Hp : forallb (has_id k) ts = true) by (apply lookup_all_present; eauto).
    now rewrite Hp.
  - destruct (forallb (has_id k) ts) eqn:Hp; [|reflexivity].
    apply lookup_all_present in Hp as [vs Hvs]. congruence.
Qed.

Lemma in_inner_join k vals ts :
  In (k, vals) (inner_join ts) -> Forall2 (fun t v => In (k, v) t) ts vals.
Proof.
  unfold inner_join. rewrite in_flat_map.
  intros ([k' v] & _ & Hin). cbn [fst] in Hin.
  destruct (lookup_all k' ts) as [vs|] eqn:E; [|contradiction].
  destruct Hin as [[= <- <-]|[]]. now apply lookup_all_rows.
Qed.






End Joiner.

Lemma filter_all {A : Type} (f : A -> bool) (l : list A) :
  (forall x, In x l -> f x = true) -> filter f l = l.
Proof.
  induction l as [|a l IH]; [reflexivity|]. intros H. cbn [filter].
  rewrite (H a (or_introl eq_refl)), IH; [reflexivity|].
  intros x Hx. apply H. now right.
Qed.

Ltac prove_unique_ids :=
  unfold unique_ids; cbn [map fst];
  repeat (constructor; [cbn [In]; intuition discriminate|]); constructor.

(** ** C1, C5: what the joiner returns *)

(** C1.  For six tables none of which repeats an identifier, the joined
    identifiers are those of the first table found in all six tables, in
    the order of the first table; the six values of a record are the
    values of the rows of that identifier, table by table; and when the
    six tables hold the same identifiers there are as many records as the
    first table has rows. *)
Theorem joiner_is_inner_join (t1 t2 t3 t4 t5 t6 : ComponentTable) :
  Forall unique_ids [t1; t2; t3; t4; t5; t6] ->
  let ts := [t1; t2; t3; t4; t5; t6] in
  map fst (combined_data ts) = filter (fun k => forallb (has_id k) ts) (ids t1) /\
  (forall k vals, In (k, vals) (combined_data ts) ->
     exists v1 v2 v3 v4 v5 v6,
       vals = [v1; v2; v3; v4; v5; v6] /\
       In (k, v1) t1 /\ In (k, v2) t2 /\ In (k, v3) t3 /\
       In (k, v4) t4 /\ In (k, v5) t5 /\ In (k, v6) t6) /\
  ((forall t k, In t ts -> (In k (ids t) <-> In k (ids t1))) ->
   List.length (combined_data ts) = List.length t1).
Proof.
  intros Hu ts.
  rewrite (combined_data_inner_join ts Hu).
  split; [exact (ids_inner_join ts)|]. split.
  - intros k vals Hin. apply in_inner_join in Hin.
    inversion Hin as [|? v1 ? r1 H1 F1]; subst.
    inversion F1 as [|? v2 ? r2 H2 F2]; subst.
    inversion F2 as [|? v3 ? r3 H3 F3]; subst.
    inversion F3 as [|? v4 ? r4 H4 F4]; subst.
    inversion F4 as [|? v5 ? r5 H5 F5]; subst.
    inversion F5 as [|? v6 ? r6 H6 F6]; subst.
    inversion F6; subst.
    exists v1, v2, v3, v4, v5, v6. repeat split; assumption.
  - intros Hsame.
    rewrite <- (length_map fst (inner_join ts)), ids_inner_join.
    cbn [hd ts]. rewrite filter_all; [apply length_map|].
    intros k Hk. apply forallb_forall. intros t Ht.
    apply has_id_In. now apply (Hsame t k Ht).
Qed.

(** C1 on the sample tables: identifiers 1 and 2 are in all six. *)
Lemma joiner_is_inner_join_witness :
  Forall unique_ids Sample.tables /\
  map fst (combined_data Sample.tables) = [1; 2] /\
  combined_data Sample.tables =
    [ (1, [Sample.v1_5; Sample.v2_0; Sample.v1_0; Sample.v_small; Sample.v1_5; Sample.v2_0]);
      (2, [Sample.vm12; Sample.v1_5; Sample.v1_0; Sample.v2_0; Sample.v1_5; Sample.v2_0]) ].
Proof.
  assert (Hu : Forall unique_ids Sample.tables)
    by (repeat (constructor; [prove_unique_ids|]); constructor).
  split; [exact Hu|].
  split; [|reflexivity].
  exact (proj1 (joiner_is_inner_join _ _ _ _ _ _ Hu)).
Defined.

Lemma output_text df :
  output df =
  Ok (Py.join newline
        (header_text :: flat_map (fun row => [elem_text row; value_text row])
                                 (iterrows df))).
Proof. unfold output. rewrite output_lines_text. reflexivity. Qed.

(** The script raises nothing once the tables are read. *)
Lemma main_total read : exists text, main read = Ok text.
Proof. eexists. apply output_text. Qed.



(** ** C9: the files behind the six components *)

Lemma in_fold_merge k vals ts : forall acc,
  In (k, vals) (fold_left merge ts acc) ->
  exists vl vs,
    In (k, vl) acc /\ vals = (vl ++ vs)%list /\
    Forall2 (fun t v => In (k, v) t) ts vs.
Proof.
  induction ts as [|t ts IH]; intros acc; cbn [fold_left].
  - intros H. exists vals, []. rewrite app_nil_r. auto.
  - intros H. apply IH in H as (vl' & vs & Hin & -> & Hall).
    apply in_merge in Hin as (vl & v & Hl & Hr & ->).
    exists vl, (v :: vs). rewrite <- app_assoc. auto.
Qed.

Lemma in_combined_data k vals ts :
  In (k, vals) (combined_data ts) ->
  In k (ids (hd [] ts)) /\ Forall2 (fun t v => In (k, v) t) ts vals.
Proof.
  unfold combined_data. intros H.
  apply in_fold_merge in H as (vl & vs & Hin & -> & Hall).
  unfold select_ELEM in Hin. apply in_map_iff in Hin as ([k' v] & [= <- <-] & Hin).
  split; [|exact Hall].
  unfold ids. apply in_map_iff. now exists (k', v).
Qed.

Lemma data_frames_files read :
  data_frames read =
  [ read "StressE_TensorX_Ambient_MPa.fem";
    read "StressE_TensorY_Ambient_MPa.fem";
    read "StressE_TensorY_Ambient_MPa.fem";
    read "StressE_TensorXY_c8_Ambient_MPa.fem";
    read "StressE_TensorXZ_c8_Ambient_MPa.fem";
    read "StressE_TensorXZ_c8_Ambient_MPa.fem" ].
Proof. reflexivity. Qed.

(** C9, as the claim states it: when the Y file repeats an identifier with
    two values, the second VALUE line carries 1.0 in the YY field and 2.0
    in the ZZ field. *)
Lemma zz_field_differs_from_yy_field :
  output_lines (combined_data (data_frames Sample.read_repeated)) =
    Ok [ "INISTRS 100             0       ";
         "        ELEM           1";
         "        VALUE        1.5     1.0     1.0     1.5     1.5     1.5";
         "        ELEM           1";
         "        VALUE        1.5     1.0     2.0     1.5     1.5     1.5";
         "        ELEM           1";
         "        VALUE        1.5     2.0     1.0     1.5     1.5     1.5";
         "        ELEM           1";
         "        VALUE        1.5     2.0     2.0     1.5     1.5     1.5" ] /\
  float_field Sample.v1_0 <> float_field Sample.v2_0.
Proof. split; [reflexivity | discriminate]. Qed.

(** C9, amended.  The ZZ table is read from the file of the YY table and
    the ZX table from the file of the YZ table; when neither file repeats
    an identifier, every VALUE line has the same cell in the ZZ field as in
    the YY field and the same cell in the ZX field as in the YZ field. *)
Theorem zz_is_yy_and_zx_is_yz (read : string -> ComponentTable) :
  unique_ids (read "StressE_TensorY_Ambient_MPa.fem") ->
  unique_ids (read "StressE_TensorXZ_c8_Ambient_MPa.fem") ->
  nth 2 (data_frames read) [] = nth 1 (data_frames read) [] /\
  nth 5 (data_frames read) [] = nth 4 (data_frames read) [] /\
  forall row, In row (iterrows (combined_data (data_frames read))) ->
    exists xx yy xy yz,
      row_values row = [xx; yy; yy; xy; yz; yz] /\
      value_line row =
        Ok (Py.spaces 8 ++ "VALUE   " ++
            float_field xx ++ float_field yy ++ float_field yy ++
            float_field xy ++ float_field yz ++ float_field yz).
Proof.
  intros Hy Hxz. split; [reflexivity|]. split; [reflexivity|].
  intros row Hrow. unfold iterrows in Hrow.
  apply in_map_iff in Hrow as ([k vals] & <- & Hin).
  apply in_combined_data in Hin as [_ Hall].
  rewrite data_frames_files in Hall.
  inversion Hall as [|? xx ? r1 H1 F1]; subst.
  inversion F1 as [|? yy ? r2 H2 F2]; subst.
  inversion F2 as [|? zz ? r3 H3 F3]; subst.
  inversion F3 as [|? xy ? r4 H4 F4]; subst.
  inversion F4 as [|? yz ? r5 H5 F5]; subst.
  inversion F5 as [|? zx ? r6 H6 F6]; subst.
  inversion F6; subst.
  assert (zz = yy) as -> by exact (unique_values _ _ _ _ Hy H3 H2).
  assert (zx = yz) as -> by exact (unique_values _ _ _ _ Hxz H6 H5).
  exists xx, yy, xy, yz. split; [reflexivity|].
  rewrite value_line_text. unfold value_text. cbn [row_values snd map].
  rewrite !join_empty_cons. cbn [Py.join String.concat].
  rewrite app_empty_r. reflexivity.
Qed.

(** C9 (amended) on sample files without repeated identifiers. *)
Lemma zz_is_yy_and_zx_is_yz_witness :
  unique_ids (Sample.read_plain "StressE_TensorY_Ambient_MPa.fem") /\
  unique_ids (Sample.read_plain "StressE_TensorXZ_c8_Ambient_MPa.fem") /\
  forall row, In row (iterrows (combined_data (data_frames Sample.read_plain))) ->
    exists xx yy xy yz,
      row_values row = [xx; yy; yy; xy; yz; yz] /\
      value_line row =
        Ok (Py.spaces 8 ++ "VALUE   " ++
            float_field xx ++ float_field yy ++ float_field yy ++
            float_field xy ++ float_field yz ++ float_field yz).
Proof.
  assert (Hy : unique_ids (Sample.read_plain "StressE_TensorY_Ambient_MPa.fem"))
    by (cbn; prove_unique_ids).
  assert (Hxz : unique_ids (Sample.read_plain "StressE_TensorXZ_c8_Ambient_MPa.fem"))
    by (cbn; prove_unique_ids).
  split; [exact Hy|]. split; [exact Hxz|].
  exact (proj2 (proj2 (zz_is_yy_and_zx_is_yz Sample.read_plain Hy Hxz))).
Defined.

(** ** C3, C7: the lines of the block *)

Section Block.

Lemma join_cons sep : forall ls h,
  Py.join sep (h :: ls) = h ++ String.concat "" (map (fun l => sep ++ l) ls).
Proof.
  unfold Py.join.
  induction ls as [|l ls IH]; intros h.
  - cbn [String.concat map]. now rewrite app_empty_r.
  - change (String.concat sep (h :: l :: ls))
      with (h ++ sep ++ String.concat sep (l :: ls)).
    rewrite IH. cbn [map].
    fold (Py.join "" ((sep ++ l) :: map (fun l => sep ++ l) ls)).
    rewrite join_empty_cons. unfold Py.join.
    now rewrite app_assoc_str.
Qed.

Lemma concat_row_lines rows :
  String.concat ""
    (map (fun l => newline ++ l)
       (flat_map (fun row => [elem_text row; value_text row]) rows)) =
  String.concat ""
    (map (fun row => newline ++ elem_text row ++ newline ++ value_text row) rows).
Proof.
  induction rows as [|row rows IH]; [reflexivity|].
  cbn [flat_map app map].
  rewrite !(join_empty_cons _ _ : String.concat "" (_ :: _) = _).
  unfold Py.join. rewrite IH, !app_assoc_str. reflexivity.
Qed.

(** The text written: the header, then for every record of the joined
    frame a newline and the ELEM line, a newline and the VALUE line. *)
Lemma output_layout df :
  output df =
  Ok (header_text ++
      String.concat ""
        (map (fun r =>
                newline ++ Py.spaces 8 ++ "ELEM    " ++
                Py.rjust 8 (Py.str_int (int_of_float64_of_int64 (fst r))) ++
                newline ++ Py.spaces 8 ++ "VALUE   " ++
                Py.join "" (map float_field (snd r))) df)).
Proof.
  rewrite output_text, join_cons, concat_row_lines. do 3 f_equal.
  unfold iterrows. rewrite map_map. apply map_ext. intros [k vals].
  unfold elem_text, value_text. cbn [row_ELEM row_values fst snd].
  now rewrite !app_assoc_str.
Qed.

Lemma mod8_whole n : ((16 + 8 * n) mod 8 = 0)%nat.
Proof.
  replace (16 + 8 * n)%nat with ((2 + n) * 8)%nat by lia.
  apply Nat.Div0.mod_mul.
Qed.

Lemma whole_value_text row : whole_columns (value_text row) = true.
Proof.
  unfold whole_columns. rewrite length_value_text, mod8_whole. reflexivity.
Qed.

Lemma whole_elem_text row :
  (String.length (Py.str_int (row_ELEM row)) <= 8)%nat ->
  whole_columns (elem_text row) = true.
Proof.
  intros H. unfold whole_columns. rewrite length_elem_text.
  replace (Nat.max 8 (String.length (Py.str_int (row_ELEM row)))) with (8 * 1)%nat by lia.
  rewrite mod8_whole. reflexivity.
Qed.

Lemma prefix_elem_text row :
  String.prefix (Py.spaces 8 ++ "ELEM    ") (elem_text row) = true.
Proof. unfold elem_text. rewrite <- app_assoc_str. apply prefix_app. Qed.

Lemma prefix_value_text row :
  String.prefix (Py.spaces 8 ++ "VALUE   ") (value_text row) = true.
Proof. unfold value_text. rewrite <- app_assoc_str. apply prefix_app. Qed.

Lemma row_texts_whole rows :
  Forall (fun row => (String.length (Py.str_int (row_ELEM row)) <= 8)%nat) rows ->
  forallb whole_columns
    (flat_map (fun row => [elem_text row; value_text row]) rows) = true /\
  record_lines (flat_map (fun row => [elem_text row; value_text row]) rows) = true.
Proof.
  induction 1 as [|row rows Hrow _ [IHw IHr]]; [split; reflexivity|].
  cbn [flat_map app forallb record_lines].
  rewrite (whole_elem_text row Hrow), whole_value_text, IHw.
  rewrite prefix_elem_text, prefix_value_text, IHr.
  split; reflexivity.
Qed.

(** An identifier that fits in 8 characters is below [2^53], so the
    upcast leaves it as it is. *)
Lemma narrow_id_exact k :
  (String.length (Py.str_int k) <= 8)%nat -> int_of_float64_of_int64 k = k.
Proof.
  intros H. apply int_of_float64_exact.
  apply (length_str_int_le k 8 ltac:(lia)) in H.
  change (10 ^ (Z.of_nat 8 - 1)) with 10000000 in H.
  change (10 ^ Z.of_nat 8) with 100000000 in H.
  change (2 ^ 53) with 9007199254740992. lia.
Qed.

End Block.

(** C3.  The block is the header followed, for every joined record in
    order, by a newline and the ELEM line and a newline and the VALUE line
    (an empty field, the keyword, then the identifier as a right-justified
    integer, respectively the values as float cells), with no newline at
    the end.  The identifier printed is the one read back from the
    float64 row: [2^53 + 1] is printed as [2^53]. *)
Theorem block_layout_and_identifier_rounding :
  (forall df,
     output df =
     Ok (header_text ++
         String.concat ""
           (map (fun r =>
                   newline ++ Py.spaces 8 ++ "ELEM    " ++
                   Py.rjust 8 (Py.str_int (int_of_float64_of_int64 (fst r))) ++
                   newline ++ Py.spaces 8 ++ "VALUE   " ++
                   Py.join "" (map float_field (snd r))) df))) /\
  map fst (combined_data Sample.huge) = [9007199254740993] /\
  output_lines (combined_data Sample.huge) =
    Ok [ "INISTRS 100             0       ";
         "        ELEM    9007199254740992";
         "        VALUE        1.5     1.5     1.5     1.5     1.5     1.5" ].
Proof.
  split; [exact output_layout|]. split; reflexivity.
Qed.

(** C7, as the claim states it: with an identifier of 9 digits the ELEM
    line has 25 characters. *)
Lemma wide_identifier_breaks_columns :
  output_lines (combined_data Sample.wide) =
    Ok [ "INISTRS 100             0       ";
         "        ELEM    123456789";
         "        VALUE        1.5     1.5     1.5     1.5     1.5     1.5" ] /\
  whole_columns "        ELEM    123456789" = false.
Proof. split; reflexivity. Qed.

(** C7, amended.  When the identifiers of the first table render in at
    most 8 characters, every line of the block, the header included, has a
    length that is a multiple of 8; the header begins with the field
    ["INISTRS "] and the lines after it are pairs of an ELEM line and a
    VALUE line, each behind an empty 8-character field. *)
Theorem lines_are_whole_columns (ts : list ComponentTable) :
  Forall (fun r => (String.length (Py.str_int (fst r)) <= 8)%nat) (hd [] ts) ->
  exists header rest,
    output_lines (combined_data ts) = Ok (header :: rest) /\
    forallb whole_columns (header :: rest) = true /\
    String.prefix "INISTRS " header = true /\
    record_lines rest = true.
Proof.
  intros Hids.
  exists header_text,
    (flat_map (fun row => [elem_text row; value_text row])
       (iterrows (combined_data ts))).
  split; [apply output_lines_text|].
  assert (Hrows : Forall (fun row => (String.length (Py.str_int (row_ELEM row)) <= 8)%nat)
                    (iterrows (combined_data ts))).
  { apply Forall_forall. intros row Hrow. unfold iterrows in Hrow.
    apply in_map_iff in Hrow as ([k vals] & <- & Hin). cbn [row_ELEM fst].
    apply in_combined_data in Hin as [Hk _].
    unfold ids in Hk. apply in_map_iff in Hk as (r & <- & Hr).
    rewrite Forall_forall in Hids. specialize (Hids r Hr).
    now rewrite narrow_id_exact. }
  destruct (row_texts_whole _ Hrows) as [Hw Hr].
  cbn [forallb]. rewrite Hw, Hr. repeat split; reflexivity.
Qed.

(** C7 (amended) on the sample tables. *)
Lemma lines_are_whole_columns_witness :
  Forall (fun r => (String.length (Py.str_int (fst r)) <= 8)%nat) (hd [] Sample.tables) /\
  exists header rest,
    output_lines (combined_data Sample.tables) = Ok (header :: rest) /\
    forallb whole_columns (header :: rest) = true /\
    String.prefix "INISTRS " header = true /\
    record_lines rest = true.
Proof.
  assert (H : Forall (fun r => (String.length (Py.str_int (fst r)) <= 8)%nat)
                (hd [] Sample.tables))
    by (repeat constructor; vm_compute; lia).
  split; [exact H | exact (lines_are_whole_columns Sample.tables H)].
Defined.

(** ** C6: the reader *)

Section ReaderFacts.

Variable to_float : string -> option float64.

Lemma records_data_lines lines : records lines = map fields (data_lines lines).
Proof.
  unfold records, data_lines, line_record.
  induction lines as [|l lines IH]; [reflexivity|].
  cbn [flat_map filter].
  destruct (starts_comment l || blank l); cbn [negb app map]; now rewrite IH.
Qed.





Lemma all_some_Forall2 {A : Type} (l : list (option A)) (r : list A) :
  all_some l = Some r -> Forall2 (fun o a => o = Some a) l r.
Proof.
  revert r. induction l as [|[a|] l IH]; intros r; cbn [all_some].
  - intros [= <-]. constructor.
  - destruct (all_some l) as [r'|]; [|discriminate].
    intros [= <-]. constructor; [reflexivity | now apply IH].
  - discriminate.
Qed.




End ReaderFacts.

Section ReaderColumns.

Variable to_float : string -> option float64.









End ReaderColumns.




(** * Further properties of the script *)

(** ** Every branch of [format_field] *)

Lemma float_field_take x :
  float_field x = Py.take 8 (Py.rjust 8 (Float.repr x)).
Proof.
  unfold float_field. cbv zeta.
  destruct (Nat.ltb_spec 8 (String.length (Py.rjust 8 (Float.repr x)))) as [H|H];
    [reflexivity|].
  symmetry. apply take_all. exact H.
Qed.

(** X1.  Whatever the value, a field returned by [format_field] has at
    least 8 characters: nothing is ever cut below the column width, and a
    text token or an integer that is too long is returned whole.  A text
    token is followed by the spaces that fill the column, the decimal
    digits of an integer are preceded by them.  The only value on which it
    raises is one that is neither text, integer nor float, and what it
    raises is [ValueError]. *)
Theorem format_field_fills_the_column (v : value) :
  match format_field v with
  | Ok cell =>
      (8 <= String.length cell)%nat /\
      match v with
      | VStr s =>
          String.length cell = Nat.max 8 (String.length s) /\
          String.prefix s cell = true /\
          cell = s ++ Py.spaces (8 - String.length s) /\
          ((8 <= String.length s)%nat -> cell = s)
      | VInt n =>
          String.length cell = Nat.max 8 (String.length (Py.str_int n)) /\
          cell = Py.spaces (8 - String.length (Py.str_int n)) ++ Py.str_int n /\
          ((8 <= String.length (Py.str_int n))%nat -> cell = Py.str_int n)
      | VFloat _ => String.length cell = 8%nat
      | VOther => False
      end
  | Raise e => v = VOther /\ e = ValueError
  end.
Proof.
  destruct v as [s|n|x|].
  - cbn [format_field]. rewrite length_ljust.
    split; [lia|]. split; [reflexivity|]. split; [apply prefix_app|].
    split; [reflexivity|]. intros H. unfold Py.ljust.
    replace (8 - String.length s)%nat with 0%nat by lia. apply app_empty_r.
  - cbn [format_field]. rewrite length_rjust.
    split; [lia|]. split; [reflexivity|]. split; [reflexivity|].
    intros H. unfold Py.rjust.
    replace (8 - String.length (Py.str_int n))%nat with 0%nat by lia. reflexivity.
  - rewrite format_field_float, length_float_field. split; [lia | reflexivity].
  - split; reflexivity.
Qed.

Lemma take_app_long n s t :
  (n <= String.length s)%nat -> Py.take n (s ++ t) = Py.take n s.
Proof.
  revert s; induction n as [|n IH]; intros [|c s] H; cbn in H |- *;
    try reflexivity; try lia.
  f_equal. apply IH. lia.
Qed.

Lemma prefix_take n s : String.prefix (Py.take n s) s = true.
Proof.
  revert s. induction n as [|n IH]; intros [|c s]; try reflexivity.
  cbn [Py.take String.prefix].
  destruct (ascii_dec c c) as [_|N]; [apply IH | now elim N].
Qed.

(** X2.  The sign of a negative value is never lost: the cell of a
    negative float is some leading spaces, the minus sign, and what fits
    of the rest of the rendering. *)
Theorem negative_value_keeps_its_sign (x : float64) (r : string) :
  Float.repr x = String "-" r ->
  exists k rest,
    float_field x = Py.spaces k ++ String "-" rest /\
    (k + 1 + String.length rest = 8)%nat /\
    String.prefix rest r = true.
Proof.
  intros Hr. rewrite float_field_take, Hr. unfold Py.rjust.
  cbn [String.length].
  destruct (le_lt_dec 7 (String.length r)) as [Hlong|Hshort].
  - replace (8 - S (String.length r))%nat with 0%nat by lia.
    exists 0%nat, (Py.take 7 r).
    split; [reflexivity|]. split.
    + rewrite length_take. lia.
    + apply prefix_take.
  - exists (7 - String.length r)%nat, r.
    rewrite take_all.
    2:{ rewrite length_append, length_spaces. cbn [String.length]. lia. }
    replace (8 - S (String.length r))%nat with (7 - String.length r)%nat by lia.
    split; [reflexivity|]. split; [lia|].
    rewrite <- (app_empty_r r) at 2. apply prefix_app.
Qed.

(** X2 at -12.345. *)
Lemma negative_value_keeps_its_sign_witness :
  Float.repr Sample.vm12 = String "-" "12.345" /\
  exists k rest,
    float_field Sample.vm12 = Py.spaces k ++ String "-" rest /\
    (k + 1 + String.length rest = 8)%nat /\
    String.prefix rest "12.345" = true.
Proof.
  assert (H : Float.repr Sample.vm12 = String "-" "12.345") by reflexivity.
  split; [exact H | exact (negative_value_keeps_its_sign Sample.vm12 "12.345" H)].
Defined.

Lemma length_mantissa digits :
  (2 <= String.length digits)%nat ->
  String.length (Float.mantissa digits) = S (String.length digits).
Proof.
  destruct digits as [|d [|d' rest]]; cbn [String.length]; try lia.
  intros _. reflexivity.
Qed.

Lemma repr_exponent_form neg digits decpt :
  decpt <= -4 \/ 16 < decpt ->
  exists tail,
    Float.repr (Finite neg digits decpt) =
    (Float.sign_str neg ++ Float.mantissa digits ++
     (if decpt <=? -4 then "e-" else "e+")) ++ tail.
Proof.
  intros H. unfold Float.repr, Float.exponent.
  assert (Hc : (decpt <=? -4) || (16 <? decpt) = true).
  { apply orb_true_iff. destruct H; [left; now apply Z.leb_le | right; now apply Z.ltb_lt]. }
  rewrite Hc.
  destruct (Z.leb_spec decpt (-4)) as [Hs|Hl].
  - destruct (Z.ltb_spec (decpt - 1) 0) as [_|]; [|lia].
    eexists. rewrite !app_assoc_str. cbn [String.append]. reflexivity.
  - destruct (Z.ltb_spec (decpt - 1) 0) as [|_]; [lia|].
    eexists. rewrite !app_assoc_str. cbn [String.append]. reflexivity.
Qed.

(** X3.  The cut can remove the digits of the exponent: a float with
    five or more significant digits that is rendered in exponent form
    (below 1e-4 or from 1e16 on) is cut before its exponent digits, so two
    values with the same sign and the same significant digits, both below
    1e-4 or both from 1e16 on, get the same cell. *)
Theorem exponent_is_cut_off (neg : bool) (digits : string) (decpt decpt' : Z) :
  (5 <= String.length digits)%nat ->
  (decpt <= -4 /\ decpt' <= -4) \/ (16 < decpt /\ 16 < decpt') ->
  float_field (Finite neg digits decpt) = float_field (Finite neg digits decpt').
Proof.
  intros Hk Hexp.
  assert (Hcut : forall p, decpt <= -4 /\ p <= -4 \/ 16 < decpt /\ 16 < p ->
            float_field (Finite neg digits p) =
            Py.take 8 (Float.sign_str neg ++ Float.mantissa digits ++
                       (if decpt <=? -4 then "e-" else "e+"))).
  { intros p Hp.
    assert (Hsame : (p <=? -4) = (decpt <=? -4)).
    { destruct (Z.leb_spec p (-4)), (Z.leb_spec decpt (-4)); lia || reflexivity. }
    destruct (repr_exponent_form neg digits p ltac:(lia)) as [tail Hr].
    rewrite Hsame in Hr.
    assert (Hlen : (8 <= String.length (Float.sign_str neg ++ Float.mantissa digits ++
                                        (if (decpt <=? -4)%Z then "e-" else "e+")))%nat).
    { rewrite !length_append, length_mantissa by lia.
      destruct (decpt <=? -4); cbn [String.length]; lia. }
    rewrite float_field_take, Hr, rjust_long by (rewrite length_append; lia).
    now apply take_app_long. }
  rewrite (Hcut decpt), (Hcut decpt'); [reflexivity | lia | lia].
Qed.

(** X3 at 1.2345e-05 and 1.2345e-08: both cells are ["1.2345e-"]. *)
Lemma exponent_is_cut_off_witness :
  (5 <= String.length "12345")%nat /\
  ((-4 <= -4 /\ -7 <= -4) \/ (16 < -4 /\ 16 < -7)) /\
  float_field (Finite false "12345" (-4)) = "1.2345e-" /\
  float_field (Finite false "12345" (-4)) = float_field (Finite false "12345" (-7)).
Proof.
  assert (Hk : (5 <= String.length "12345")%nat) by (cbn; lia).
  assert (He : (-4 <= -4 /\ -7 <= -4) \/ (16 < -4 /\ 16 < -7)) by (left; lia).
  split; [exact Hk|]. split; [exact He|]. split; [reflexivity|].
  exact (exponent_is_cut_off false "12345" (-4) (-7) Hk He).
Defined.

(** X4.  The integer field can be read back at any width, also beyond 8
    characters, so two different integers never give the same field. *)
Theorem integer_field_is_injective :
  (forall n, exists cell,
      format_field (VInt n) = Ok cell /\ Py.int_of_str cell = Some n) /\
  (forall n m, format_field (VInt n) = format_field (VInt m) -> n = m).
Proof.
  split.
  - intros n. eexists. split; [reflexivity | apply int_of_str_rjust].
  - intros n m H. cbn [format_field] in H. injection H as H.
    pose proof (int_of_str_rjust 8 n) as Hn. rewrite H, int_of_str_rjust in Hn.
    now injection Hn.
Qed.

(** ** The joiner on arbitrary tables *)

Section JoinerAnyTables.

Lemma fold_merge_in k vl vs ts : forall acc,
  In (k, vl) acc ->
  Forall2 (fun (t : ComponentTable) v => In (k, v) t) ts vs ->
  In (k, (vl ++ vs)%list) (fold_left merge ts acc).
Proof.
  revert vl vs. induction ts as [|t ts IH]; intros vl vs acc Hin Hall;
    inversion Hall as [|? v ? vs' Hv Hvs]; subst; cbn [fold_left].
  - now rewrite app_nil_r.
  - replace (vl ++ v :: vs')%list with ((vl ++ [v]) ++ vs')%list
      by (now rewrite <- app_assoc).
    apply IH; [|assumption].
    apply in_merge. exists vl, v. auto.
Qed.

Lemma combined_data_in k vals ts :
  In (k, vals) (combined_data ts) <->
  In k (ids (hd [] ts)) /\ Forall2 (fun t v => In (k, v) t) ts vals.
Proof.
  split; [apply in_combined_data|].
  intros [Hk Hall]. unfold combined_data.
  change vals with ([] ++ vals)%list. apply fold_merge_in; [|assumption].
  unfold select_ELEM, ids in *. apply in_map_iff in Hk as ([k' v] & <- & Hin).
  apply in_map_iff. now exists (k', v).
Qed.

Lemma in_ids k v (t : ComponentTable) : In (k, v) t -> In k (ids t).
Proof. intros H. unfold ids. apply in_map_iff. now exists (k, v). Qed.

Lemma ids_in k (t : ComponentTable) : In k (ids t) -> exists v, In (k, v) t.
Proof.
  unfold ids. intros H. apply in_map_iff in H as ([k' v] & <- & Hin). now exists v.
Qed.

Lemma map_fst_merge left right :
  map fst (merge left right) =
  flat_map (fun k => repeat k (occurrences k right)) (map fst left).
Proof.
  unfold merge, occurrences.
  induction left as [|[k vl] left IH]; [reflexivity|].
  cbn [flat_map map fst snd]. rewrite map_app, IH. f_equal.
  induction (matching k right) as [|r m IHm]; [reflexivity|].
  cbn [map List.length repeat fst]. now rewrite IHm.
Qed.

Lemma flat_map_repeat (f : Z -> nat) k n :
  flat_map (fun k' => repeat k' (f k')) (repeat k n) = repeat k (n * f k).
Proof.
  induction n as [|n IH]; [reflexivity|].
  cbn [repeat flat_map Nat.mul]. now rewrite IH, repeat_app.
Qed.

Lemma map_fst_fold_merge ts : forall acc,
  map fst (fold_left merge ts acc) =
  flat_map (fun k => repeat k (combinations k ts)) (map fst acc).
Proof.
  induction ts as [|t ts IH]; intros acc; cbn [fold_left].
  - induction (map fst acc) as [|k l IHl]; [reflexivity|].
    cbn [flat_map]. change (repeat k (combinations k [])) with [k].
    cbn [app]. now f_equal.
  - rewrite IH, map_fst_merge.
    induction (map fst acc) as [|k l IHl]; [reflexivity|].
    cbn [flat_map]. rewrite flat_map_app, IHl. f_equal.
    apply flat_map_repeat.
Qed.

End JoinerAnyTables.

(** X5.  Whatever the tables, repeated identifiers included, the joined
    records of an identifier are exactly the combinations of one row of
    that identifier from each of the six tables, values in the order of
    the tables; so an identifier is joined exactly when all six tables
    have it, and one missing from a single table is dropped without
    error. *)
Theorem joined_records_are_the_combinations
    (t1 t2 t3 t4 t5 t6 : ComponentTable) (k : Z) :
  (forall vals,
     In (k, vals) (combined_data [t1; t2; t3; t4; t5; t6]) <->
     exists v1 v2 v3 v4 v5 v6,
       vals = [v1; v2; v3; v4; v5; v6] /\
       In (k, v1) t1 /\ In (k, v2) t2 /\ In (k, v3) t3 /\
       In (k, v4) t4 /\ In (k, v5) t5 /\ In (k, v6) t6) /\
  (In k (map fst (combined_data [t1; t2; t3; t4; t5; t6])) <->
   In k (ids t1) /\ In k (ids t2) /\ In k (ids t3) /\
   In k (ids t4) /\ In k (ids t5) /\ In k (ids t6)).
Proof.
  assert (Hrec : forall vals,
     In (k, vals) (combined_data [t1; t2; t3; t4; t5; t6]) <->
     exists v1 v2 v3 v4 v5 v6,
       vals = [v1; v2; v3; v4; v5; v6] /\
       In (k, v1) t1 /\ In (k, v2) t2 /\ In (k, v3) t3 /\
       In (k, v4) t4 /\ In (k, v5) t5 /\ In (k, v6) t6).
  { intros vals. rewrite combined_data_in. cbn [hd]. split.
    - intros [_ Hall].
      inversion Hall as [|? v1 ? r1 H1 F1]; subst.
      inversion F1 as [|? v2 ? r2 H2 F2]; subst.
      inversion F2 as [|? v3 ? r3 H3 F3]; subst.
      inversion F3 as [|? v4 ? r4 H4 F4]; subst.
      inversion F4 as [|? v5 ? r5 H5 F5]; subst.
      inversion F5 as [|? v6 ? r6 H6 F6]; subst.
      inversion F6; subst.
      exists v1, v2, v3, v4, v5, v6. repeat split; assumption.
    - intros (v1 & v2 & v3 & v4 & v5 & v6 & -> & H1 & H2 & H3 & H4 & H5 & H6).
      split; [now apply (in_ids k v1)|].
      repeat (constructor; [assumption|]). constructor. }
  split; [exact Hrec|]. split.
  - intros H. apply in_map_iff in H as ([k' vals] & Hk & Hin). cbn [fst] in Hk. subst k'.
    apply Hrec in Hin as (v1 & v2 & v3 & v4 & v5 & v6 & _ & H1 & H2 & H3 & H4 & H5 & H6).
    repeat split; eapply in_ids; eassumption.
  - intros (H1 & H2 & H3 & H4 & H5 & H6).
    apply ids_in in H1 as [v1 H1]. apply ids_in in H2 as [v2 H2].
    apply ids_in in H3 as [v3 H3]. apply ids_in in H4 as [v4 H4].
    apply ids_in in H5 as [v5 H5]. apply ids_in in H6 as [v6 H6].
    apply in_map_iff. exists (k, [v1; v2; v3; v4; v5; v6]). split; [reflexivity|].
    apply Hrec. exists v1, v2, v3, v4, v5, v6. repeat split; assumption.
Qed.

(** X6.  The records come in the order of the rows of the first table:
    the identifier of each row of the first table, repeated once per
    combination of rows of that identifier in the six tables (not at all
    when a table lacks it). *)
Theorem joined_ids_follow_the_first_table (t1 t2 t3 t4 t5 t6 : ComponentTable) :
  map fst (combined_data [t1; t2; t3; t4; t5; t6]) =
  flat_map (fun k => repeat k (combinations k [t1; t2; t3; t4; t5; t6])) (ids t1).
Proof.
  unfold combined_data. rewrite map_fst_fold_merge. cbn [hd].
  unfold select_ELEM, ids. now rewrite map_map.
Qed.

(** X7.  When no identifier is found in all the tables (one of them may be
    empty), nothing is joined and the text written is the header alone,
    without a newline. *)
Theorem no_common_id_writes_the_header_only (ts : list ComponentTable) :
  (forall k, exists t, In t ts /\ ~ In k (ids t)) ->
  combined_data ts = [] /\
  output (combined_data ts) = Ok "INISTRS 100             0       ".
Proof.
  intros Hnone.
  assert (Hempty : combined_data ts = []).
  { destruct (combined_data ts) as [|[k vals] rest] eqn:E; [reflexivity|].
    exfalso.
    assert (Hin : In (k, vals) (combined_data ts)) by (rewrite E; now left).
    apply in_combined_data in Hin as [_ Hall].
    destruct (Hnone k) as (t & Ht & Hk). apply Hk. clear -Hall Ht.
    induction Hall as [|t' v ts' vs Hv _ IH]; [contradiction|].
    destruct Ht as [->|Ht]; [now apply (in_ids k v) | now apply IH]. }
  split; [exact Hempty|]. now rewrite Hempty.
Qed.

(** X7 on six tables of which the fourth is empty. *)
Lemma no_common_id_writes_the_header_only_witness :
  (forall k, exists t,
      In t [ [(1, Sample.v1_5)]; [(1, Sample.v1_5)]; [(1, Sample.v1_5)]; [];
             [(1, Sample.v1_5)]; [(1, Sample.v1_5)] ] /\ ~ In k (ids t)) /\
  output (combined_data
            [ [(1, Sample.v1_5)]; [(1, Sample.v1_5)]; [(1, Sample.v1_5)]; [];
              [(1, Sample.v1_5)]; [(1, Sample.v1_5)] ])
  = Ok "INISTRS 100             0       ".
Proof.
  assert (H : forall k, exists t,
      In t [ [(1, Sample.v1_5)]; [(1, Sample.v1_5)]; [(1, Sample.v1_5)]; [];
             [(1, Sample.v1_5)]; [(1, Sample.v1_5)] ] /\ ~ In k (ids t)).
  { intros k. exists []. split; [cbn; tauto | intros []]. }
  split; [exact H | exact (proj2 (no_common_id_writes_the_header_only _ H))].
Defined.

(** ** The shape of the block *)

Lemma combined_data_six_values (t1 t2 t3 t4 t5 t6 : ComponentTable) :
  Forall (fun r => List.length (snd r) = 6%nat)
    (combined_data [t1; t2; t3; t4; t5; t6]).
Proof.
  apply Forall_forall. intros [k vals] Hin. cbn [snd].
  apply in_combined_data in Hin as [_ Hall].
  apply Forall2_length in Hall. now rewrite <- Hall.
Qed.

Lemma record_widths_rows rows :
  Forall (fun row => List.length (row_values row) = 6%nat) rows ->
  record_widths (flat_map (fun row => [elem_text row; value_text row]) rows) = true /\
  List.length (flat_map (fun row => [elem_text row; value_text row]) rows)
  = (2 * List.length rows)%nat.
Proof.
  induction 1 as [|row rows Hrow _ [IHw IHl]]; [split; reflexivity|].
  cbn [flat_map app record_widths List.length].
  rewrite length_elem_text, length_value_text, Hrow, IHw, IHl.
  split; [|lia].
  rewrite andb_true_r. apply andb_true_iff. split.
  - apply Nat.leb_le. lia.
  - reflexivity.
Qed.

(** X8.  For six tables with identifiers in the int64 range and float64
    value columns, the script raises nothing and writes the header
    followed by exactly two lines per joined record: an ELEM line of at
    least 24 characters and a VALUE line of exactly 64 characters (two
    prefix fields and six cells).  Tables with a value column of another
    dtype, as when every value of a file is written as an integer, are not
    covered. *)
Theorem block_has_two_lines_per_record (t1 t2 t3 t4 t5 t6 : ComponentTable) :
  forallb int64_ids [t1; t2; t3; t4; t5; t6] = true ->
  exists rest,
    output_lines (combined_data [t1; t2; t3; t4; t5; t6]) =
      Ok ("INISTRS 100             0       " :: rest) /\
    List.length rest = (2 * List.length (combined_data [t1; t2; t3; t4; t5; t6]))%nat /\
    record_widths rest = true.
Proof.
  intros _.
  eexists. split; [apply output_lines_text|].
  assert (Hrows : Forall (fun row => List.length (row_values row) = 6%nat)
                    (iterrows (combined_data [t1; t2; t3; t4; t5; t6]))).
  { unfold iterrows. apply Forall_map.
    eapply Forall_impl; [|apply combined_data_six_values].
    intros r Hr. exact Hr. }
  destruct (record_widths_rows _ Hrows) as [Hw Hl].
  split; [|exact Hw].
  rewrite Hl. unfold iterrows. now rewrite length_map.
Qed.

(** X8 on the sample tables: two records, four lines. *)
Lemma block_has_two_lines_per_record_witness :
  forallb int64_ids Sample.tables = true /\
  List.length (combined_data Sample.tables) = 2%nat /\
  exists rest,
    output_lines (combined_data Sample.tables) =
      Ok ("INISTRS 100             0       " :: rest) /\
    List.length rest = (2 * List.length (combined_data Sample.tables))%nat /\
    record_widths rest = true.
Proof.
  assert (H : forallb int64_ids Sample.tables = true) by reflexivity.
  split; [exact H|]. split; [reflexivity|].
  exact (block_has_two_lines_per_record _ _ _ _ _ _ H).
Defined.

(** ** Reading the lines back *)

Section Columns.

Lemma drop_app_exact s t : Py.drop (String.length s) (s ++ t) = t.
Proof. induction s as [|c s IH]; [now destruct t | exact IH]. Qed.

Lemma take_app_exact s t : Py.take (String.length s) (s ++ t) = s.
Proof.
  induction s as [|c s IH]; [now destruct t|].
  cbn [String.length String.append Py.take]. now rewrite IH.
Qed.

Lemma drop_app_len n s t : String.length s = n -> Py.drop n (s ++ t) = t.
Proof. intros <-. apply drop_app_exact. Qed.

Lemma take_app_len n s t : String.length s = n -> Py.take n (s ++ t) = s.
Proof. intros <-. apply take_app_exact. Qed.

Lemma drop_add a b s : Py.drop (a + b) s = Py.drop b (Py.drop a s).
Proof.
  revert s. induction a as [|a IH]; intros s; [reflexivity|].
  destruct s as [|c s]; [now destruct b | apply IH].
Qed.

Lemma column_of_cells i vs rest :
  (i < List.length vs)%nat ->
  Py.take 8 (Py.drop (8 * i) (Py.join "" (map float_field vs) ++ rest)) =
  float_field (nth i vs NaN).
Proof.
  revert i. induction vs as [|v vs IH]; intros i Hi; [cbn in Hi; lia|].
  cbn [map]. rewrite join_empty_cons, app_assoc_str.
  destruct i as [|i].
  - cbn [Nat.mul Py.drop nth].
    apply take_app_len, length_float_field.
  - replace (8 * S i)%nat with (8 + 8 * i)%nat by lia.
    rewrite drop_add, (drop_app_len 8) by apply length_float_field.
    cbn [nth]. apply IH. cbn in Hi. lia.
Qed.

End Columns.

(** X9.  The cells of a VALUE line are found again by cutting the line
    every 8 characters: the first two columns are the empty field and the
    keyword, and column [2 + i] is the cell of the [i]-th value. *)
Theorem value_line_columns (row : Series) (i : nat) :
  (i < List.length (row_values row))%nat ->
  exists line,
    value_line row = Ok line /\
    column 0 line = "        " /\
    column 1 line = "VALUE   " /\
    column (2 + i) line = float_field (nth i (row_values row) NaN).
Proof.
  intros Hi. exists (value_text row).
  split; [apply value_line_text|].
  unfold column, value_text. split; [reflexivity|]. split; [reflexivity|].
  replace (8 * (2 + i))%nat with (8 + (8 + 8 * i))%nat by lia.
  rewrite !drop_add.
  rewrite (drop_app_len 8 (Py.spaces 8)) by reflexivity.
  rewrite (drop_app_len 8 "VALUE   ") by reflexivity.
  rewrite <- (app_empty_r (Py.join "" (map float_field (row_values row)))).
  now apply column_of_cells.
Qed.

(** X9 at the fourth value of a row. *)
Lemma value_line_columns_witness :
  (3 < List.length (row_values (mkSeries 7
        [Sample.v1_5; Sample.v2_0; Sample.v1_0; Sample.vm12; Sample.v1_5; Sample.v2_0])))%nat /\
  exists line,
    value_line (mkSeries 7
        [Sample.v1_5; Sample.v2_0; Sample.v1_0; Sample.vm12; Sample.v1_5; Sample.v2_0])
      = Ok line /\
    column 0 line = "        " /\
    column 1 line = "VALUE   " /\
    column (2 + 3) line = " -12.345".
Proof.
  assert (H : (3 < List.length (row_values (mkSeries 7
        [Sample.v1_5; Sample.v2_0; Sample.v1_0; Sample.vm12; Sample.v1_5; Sample.v2_0])))%nat)
    by (cbn; lia).
  split; [exact H | exact (value_line_columns _ 3%nat H)].
Defined.

(** X10.  An element identifier below [2^53] in magnitude is printed
    exactly: its ELEM line is the empty field, the keyword, and a third
    part from which [int] reads the identifier back. *)
Theorem elem_line_carries_the_identifier (id : Z) (vals : list float64) :
  Z.abs id < 2 ^ 53 ->
  exists line,
    map elem_line (iterrows [(id, vals)]) = [Ok line] /\
    column 0 line = "        " /\
    column 1 line = "ELEM    " /\
    Py.int_of_str (Py.drop 16 line) = Some id.
Proof.
  intros Hid. eexists. split; [reflexivity|].
  cbn [map iterrows fst snd]. unfold elem_text. cbn [row_ELEM].
  rewrite int_of_float64_exact by assumption.
  split; [reflexivity|]. split; [reflexivity|].
  change (Py.drop 16 (Py.spaces 8 ++ "ELEM    " ++ Py.rjust 8 (Py.str_int id)))
    with (Py.rjust 8 (Py.str_int id)).
  apply int_of_str_rjust.
Qed.

(** X10 at the largest identifier of 53 bits. *)
Lemma elem_line_carries_the_identifier_witness :
  Z.abs 9007199254740991 < 2 ^ 53 /\
  exists line,
    map elem_line (iterrows [(9007199254740991, [Sample.v1_5])]) = [Ok line] /\
    column 0 line = "        " /\
    column 1 line = "ELEM    " /\
    Py.int_of_str (Py.drop 16 line) = Some 9007199254740991.
Proof.
  assert (H : Z.abs 9007199254740991 < 2 ^ 53) by (vm_compute; reflexivity).
  split; [exact H | exact (elem_line_carries_the_identifier _ [Sample.v1_5] H)].
Defined.

(** X11.  An element identifier of the int64 range that is [2^53] or more
    in magnitude is printed, in a frame with a value column, as the nearest
    multiple of the spacing [2^sh] of the float64 values around it, [sh]
    being its number of bits beyond 53: the printed identifier is at most
    half that spacing away from the real one. *)
Theorem wide_identifier_is_rounded_to_nearest (id : Z) (vals : list float64) :
  in_int64 id = true ->
  vals <> [] ->
  2 ^ 53 <= Z.abs id ->
  exists printed,
    map row_ELEM (iterrows [(id, vals)]) = [printed] /\
    (2 ^ (Z.log2 (Z.abs id) - 52) | printed) /\
    2 * Z.abs (printed - id) <= 2 ^ (Z.log2 (Z.abs id) - 52) /\
    2 ^ 53 <= Z.abs printed.
Proof.
  intros _ _ Hid. eexists. split; [reflexivity|]. cbn [fst].
  assert (Hsh : 0 < Z.log2 (Z.abs id) - 52).
  { assert (53 <= Z.log2 (Z.abs id)) by (apply Z.log2_le_pow2; lia). lia. }
  destruct (int_of_float64_nearest id Hsh) as [Hdiv Hnear].
  split; [exact Hdiv|]. split; [exact Hnear|].
  now apply int_of_float64_large.
Qed.

(** X11 at [2^53 + 3], printed as [2^53 + 4]. *)
Lemma wide_identifier_is_rounded_to_nearest_witness :
  in_int64 9007199254740995 = true /\
  2 ^ 53 <= Z.abs 9007199254740995 /\
  map row_ELEM (iterrows [(9007199254740995, [Sample.v1_5])]) = [9007199254740996] /\
  exists printed,
    map row_ELEM (iterrows [(9007199254740995, [Sample.v1_5])]) = [printed] /\
    (2 ^ (Z.log2 (Z.abs 9007199254740995) - 52) | printed) /\
    2 * Z.abs (printed - 9007199254740995) <= 2 ^ (Z.log2 (Z.abs 9007199254740995) - 52) /\
    2 ^ 53 <= Z.abs printed.
Proof.
  assert (Hr : in_int64 9007199254740995 = true) by reflexivity.
  assert (Hv : [Sample.v1_5] <> []) by discriminate.
  assert (H : 2 ^ 53 <= Z.abs 9007199254740995) by (vm_compute; discriminate).
  split; [exact Hr|]. split; [exact H|]. split; [reflexivity|].
  exact (wide_identifier_is_rounded_to_nearest _ [Sample.v1_5] Hr Hv H).
Defined.

Section NoNewline.

Lemma all_chars_impl (p q : ascii -> bool) s :
  (forall c, p c = true -> q c = true) ->
  all_chars p s = true -> all_chars q s = true.
Proof.
  intros Hpq. induction s as [|c s IH]; [reflexivity|]. cbn [all_chars].
  intros H. apply andb_true_iff in H as [Hc Hs].
  now rewrite (Hpq c Hc), IH.
Qed.

Lemma all_chars_take p n s :
  all_chars p s = true -> all_chars p (Py.take n s) = true.
Proof.
  revert s. induction n as [|n IH]; intros [|c s]; try reflexivity.
  cbn [Py.take all_chars]. intros H. apply andb_true_iff in H as [Hc Hs].
  now rewrite Hc, IH.
Qed.

Lemma all_chars_drop p n s :
  all_chars p s = true -> all_chars p (Py.drop n s) = true.
Proof.
  revert s. induction n as [|n IH]; intros [|c s]; try (intros H; exact H).
  cbn [Py.drop all_chars]. intros H. apply andb_true_iff in H as [_ Hs].
  now apply IH.
Qed.

Lemma all_chars_replicate p n c :
  p c = true -> all_chars p (Py.replicate n c) = true.
Proof.
  intros Hc. induction n as [|n IH]; [reflexivity|].
  cbn [Py.replicate all_chars]. now rewrite Hc, IH.
Qed.

Lemma is_digit_not_newline c : Py.is_digit c = true -> not_newline c = true.
Proof.
  unfold not_newline. destruct (Ascii.eqb_spec c "010") as [->|]; [discriminate | reflexivity].
Qed.

Lemma digits_no_newline s :
  all_chars Py.is_digit s = true -> all_chars not_newline s = true.
Proof. apply all_chars_impl, is_digit_not_newline. Qed.

Lemma str_nat_no_newline n : 0 <= n -> all_chars not_newline (Py.str_nat n) = true.
Proof. intros H. apply digits_no_newline. now apply str_nat_spec. Qed.

Lemma str_int_no_newline n : all_chars not_newline (Py.str_int n) = true.
Proof.
  destruct (Z.lt_ge_cases n 0) as [Hn|Hn].
  - rewrite str_int_neg by assumption. cbn [all_chars].
    rewrite str_nat_no_newline by lia. reflexivity.
  - rewrite str_int_nonneg by assumption. now apply str_nat_no_newline.
Qed.

Lemma mantissa_no_newline digits :
  all_chars not_newline digits = true ->
  all_chars not_newline (Float.mantissa digits) = true.
Proof.
  destruct digits as [|d [|d' rest]]; cbn [Float.mantissa]; intros H; exact H.
Qed.

Lemma repr_no_newline x :
  digits_ok x = true -> all_chars not_newline (Float.repr x) = true.
Proof.
  destruct x as [neg digits decpt|neg|]; cbn [digits_ok Float.repr];
    [|intros _; now destruct neg | reflexivity].
  intros Hd. apply digits_no_newline in Hd.
  assert (Hsign : all_chars not_newline (Float.sign_str neg) = true)
    by now destruct neg.
  assert (Hzeros : forall n, all_chars not_newline (Float.zeros n) = true)
    by (intros n; now apply all_chars_replicate).
  rewrite all_chars_app, Hsign. cbn [andb].
  destruct ((decpt <=? -4) || (16 <? decpt)).
  - unfold Float.exponent.
    rewrite !all_chars_app, mantissa_no_newline, str_nat_no_newline by (auto; lia).
    destruct (decpt - 1 <? 0), (Z.abs (decpt - 1) <? 10); reflexivity.
  - destruct (decpt <=? 0).
    + rewrite !all_chars_app, Hzeros, Hd. reflexivity.
    + destruct (decpt <? Z.of_nat (String.length digits)).
      * rewrite !all_chars_app, all_chars_take, all_chars_drop by assumption.
        reflexivity.
      * rewrite !all_chars_app, Hzeros, Hd. reflexivity.
Qed.

Lemma float_field_no_newline x :
  digits_ok x = true -> all_chars not_newline (float_field x) = true.
Proof.
  intros H. rewrite float_field_take. apply all_chars_take.
  unfold Py.rjust. rewrite all_chars_app, repr_no_newline by assumption.
  rewrite andb_true_r. now apply all_chars_replicate.
Qed.

Lemma elem_text_no_newline row : all_chars not_newline (elem_text row) = true.
Proof.
  unfold elem_text, Py.rjust, Py.spaces.
  rewrite !all_chars_app, str_int_no_newline.
  rewrite !all_chars_replicate by reflexivity. reflexivity.
Qed.

Lemma value_text_no_newline row :
  forallb digits_ok (row_values row) = true ->
  all_chars not_newline (value_text row) = true.
Proof.
  intros H. unfold value_text. rewrite !all_chars_app.
  replace (all_chars not_newline (Py.join "" (map float_field (row_values row))))
    with true; [reflexivity|].
  symmetry. induction (row_values row) as [|v vs IH]; [reflexivity|].
  cbn [forallb] in H. apply andb_true_iff in H as [Hv Hvs].
  cbn [map]. rewrite join_empty_cons, all_chars_app, float_field_no_newline, IH by assumption.
  reflexivity.
Qed.

Lemma split_go_piece s rest cur :
  all_chars not_newline s = true ->
  split_go (s ++ rest) cur = split_go rest (cur ++ s).
Proof.
  revert cur. induction s as [|c s IH]; intros cur H.
  - now rewrite app_empty_r.
  - cbn [all_chars] in H. apply andb_true_iff in H as [Hc Hs].
    cbn [String.append split_go]. unfold not_newline in Hc.
    destruct (Ascii.eqb c "010"); [discriminate|].
    rewrite IH by assumption. now rewrite app_assoc_str.
Qed.

(** Splitting at the newlines undoes the join of lines without newline. *)
Lemma split_join_lines : forall ls l cur,
  Forall (fun x => all_chars not_newline x = true) (l :: ls) ->
  split_go (l ++ String.concat "" (map (fun x => newline ++ x) ls)) cur =
  (cur ++ l) :: ls.
Proof.
  induction ls as [|x ls IH]; intros l cur H;
    inversion H as [|? ? Hl Hls]; subst.
  - cbn [map String.concat]. rewrite split_go_piece by assumption. reflexivity.
  - cbn [map]. rewrite (join_empty_cons _ _ : String.concat "" (_ :: _) = _).
    unfold Py.join. rewrite split_go_piece by assumption.
    rewrite app_assoc_str. cbn [newline String.append split_go].
    change (Ascii.eqb "010" "010") with true. cbv iota.
    f_equal. now apply IH.
Qed.

End NoNewline.

(** X12.  The text written splits at its newlines into exactly the lines
    of the block, the header and two lines per record: no field contains a
    newline and none is added at the end.  (The digit strings of the
    values are made of digits.) *)
Theorem written_text_splits_into_the_lines (df : DataFrame) :
  Forall (fun r => forallb digits_ok (snd r) = true) df ->
  exists lines text,
    output_lines df = Ok lines /\
    output df = Ok text /\
    split_lines text = lines /\
    List.length lines = (1 + 2 * List.length df)%nat.
Proof.
  intros Hok. do 2 eexists.
  split; [apply output_lines_text|]. split; [apply output_text|].
  assert (Hrows : Forall (fun x => all_chars not_newline x = true)
            (flat_map (fun row => [elem_text row; value_text row]) (iterrows df))).
  { unfold iterrows. clear -Hok.
    induction Hok as [|[k vals] df Hr _ IH]; [constructor|].
    cbn [map flat_map app]. constructor; [apply elem_text_no_newline|].
    constructor; [now apply value_text_no_newline | exact IH]. }
  split.
  - unfold split_lines. rewrite join_cons.
    rewrite split_join_lines; [reflexivity|].
    constructor; [reflexivity | exact Hrows].
  - cbn [List.length]. f_equal.
    unfold iterrows. clear. induction df as [|r df IH]; [reflexivity|].
    cbn [map flat_map app List.length]. rewrite IH. lia.
Qed.

(** X12 on the sample tables. *)
Lemma written_text_splits_into_the_lines_witness :
  Forall (fun r => forallb digits_ok (snd r) = true) (combined_data Sample.tables) /\
  exists lines text,
    output_lines (combined_data Sample.tables) = Ok lines /\
    output (combined_data Sample.tables) = Ok text /\
    split_lines text = lines /\
    List.length lines = (1 + 2 * List.length (combined_data Sample.tables))%nat.
Proof.
  assert (H : Forall (fun r => forallb digits_ok (snd r) = true)
                (combined_data Sample.tables))
    by (repeat constructor).
  split; [exact H | exact (written_text_splits_into_the_lines _ H)].
Defined.

(** ** The reader on arbitrary sources *)

Section ReaderAnySource.

Variable to_float : string -> option float64.

Lemma strip_comment_app a note :
  strip_comment (a ++ String "$" note) = strip_comment a.
Proof.
  induction a as [|c a IH]; [reflexivity|].
  cbn [String.append strip_comment]. now rewrite IH.
Qed.

Lemma fields_with_comment note l : fields (with_comment note l) = fields l.
Proof. unfold fields, with_comment. now rewrite strip_comment_app. Qed.

Lemma blank_with_comment note l : blank (with_comment note l) = false.
Proof.
  unfold with_comment. induction l as [|c l IH]; [reflexivity|].
  cbn [String.append blank]. rewrite IH. apply andb_false_r.
Qed.

Lemma line_record_with_comment note l :
  empty_or_filled l = true ->
  line_record (with_comment note l) = line_record l.
Proof.
  destruct l as [|c l]; [reflexivity|].
  unfold empty_or_filled. cbn [String.eqb orb]. intros H.
  apply negb_true_iff in H.
  unfold line_record. rewrite blank_with_comment, H, fields_with_comment.
  reflexivity.
Qed.

Lemma records_with_comment note lines :
  forallb empty_or_filled lines = true ->
  records (map (with_comment note) lines) = records lines.
Proof.
  unfold records. induction lines as [|l lines IH]; [reflexivity|].
  cbn [forallb map flat_map]. intros H. apply andb_true_iff in H as [Hl Hr].
  now rewrite (line_record_with_comment note l Hl), IH.
Qed.

Lemma all_some_length {A : Type} (l : list (option A)) (r : list A) :
  all_some l = Some r -> List.length r = List.length l.
Proof.
  intros H. apply all_some_Forall2 in H. symmetry. exact (Forall2_length H).
Qed.

Lemma length_convert_column toks :
  List.length (convert_column to_float toks) = List.length toks.
Proof.
  unfold convert_column. cbv zeta.
  rewrite <- (length_map na_filter toks).
  generalize (map na_filter toks) as ts. intros ts.
  destruct (try_int ts) as [c|] eqn:Ei.
  - unfold try_int in Ei.
    destruct (all_some _) as [ns|] eqn:En; [|discriminate].
    destruct (_ || _); [|discriminate]. injection Ei as <-.
    apply all_some_length in En. now rewrite !length_map in *.
  - destruct (try_float to_float ts) as [c|] eqn:Ef.
    + unfold try_float in Ef. apply all_some_length in Ef.
      now rewrite length_map in Ef.
    + destruct (try_bool ts) as [c|] eqn:Eb.
      * unfold try_bool in Eb. apply all_some_length in Eb.
        now rewrite length_map in Eb.
      * unfold as_object. apply length_map.
Qed.

Lemma tokenize_short_lines lines :
  Forall (fun l => (List.length (fields l) <= 2)%nat) lines ->
  tokenize lines = Ok (map (two_from 0) (map fields (data_lines lines))).
Proof.
  intros H. unfold tokenize. rewrite records_data_lines.
  assert (Hrecs : Forall (fun r => (List.length r <= 2)%nat)
                    (map fields (data_lines lines))).
  { apply Forall_map. unfold data_lines.
    apply Forall_forall. intros l Hl. apply filter_In in Hl as [Hl _].
    rewrite Forall_forall in H. now apply H. }
  cbv zeta.
  assert (He : expected_fields (map fields (data_lines lines)) = 2%nat).
  { destruct (map fields (data_lines lines)) as [|r recs]; [reflexivity|].
    cbn [expected_fields]. inversion Hrecs; subst. lia. }
  rewrite He.
  assert (Hall : forallb (fun r => (List.length r <=? 2)%nat)
                   (map fields (data_lines lines)) = true).
  { apply forallb_forall. intros r Hr. apply Nat.leb_le.
    rewrite Forall_forall in Hrecs. now apply Hrecs. }
  now rewrite Hall.
Qed.

End ReaderAnySource.

(** X13.  What follows the comment marker on a line is ignored: in a
    source of printable ASCII characters, with no quote character before a
    comment marker, in which every line is empty or holds something else
    than whitespace, appending a comment (of printable characters) to
    every line changes nothing in the frame read (nor in the error raised,
    if any). *)
Theorem trailing_comments_are_ignored
    (to_float : string -> option float64) (note : string) (lines : list string) :
  forallb plain_line lines = true ->
  all_chars printable note = true ->
  forallb empty_or_filled lines = true ->
  read_csv to_float (map (with_comment note) lines) = read_csv to_float lines.
Proof.
  intros _ _ H. unfold read_csv, tokenize.
  now rewrite (records_with_comment note lines H).
Qed.

(** X13 on a source with an empty line and a line that has a comment
    already. *)
Lemma trailing_comments_are_ignored_witness :
  forallb plain_line ["1 1.5"; ""; "2 -12.345 $ x"; "3 2.0"] = true /\
  all_chars printable " MPa" = true /\
  forallb empty_or_filled ["1 1.5"; ""; "2 -12.345 $ x"; "3 2.0"] = true /\
  map (with_comment " MPa") ["1 1.5"; ""; "2 -12.345 $ x"; "3 2.0"] =
    ["1 1.5$ MPa"; "$ MPa"; "2 -12.345 $ x$ MPa"; "3 2.0$ MPa"] /\
  read_csv Sample.to_float ["1 1.5"; ""; "2 -12.345 $ x"; "3 2.0"] =
    Ok [ (CInt 1, CFloat Sample.v1_5);
         (CInt 2, CFloat Sample.vm12);
         (CInt 3, CFloat Sample.v2_0) ] /\
  read_csv Sample.to_float
    (map (with_comment " MPa") ["1 1.5"; ""; "2 -12.345 $ x"; "3 2.0"]) =
  read_csv Sample.to_float ["1 1.5"; ""; "2 -12.345 $ x"; "3 2.0"].
Proof.
  assert (Hp : forallb plain_line ["1 1.5"; ""; "2 -12.345 $ x"; "3 2.0"] = true)
    by reflexivity.
  assert (Hn : all_chars printable " MPa" = true) by reflexivity.
  assert (He : forallb empty_or_filled ["1 1.5"; ""; "2 -12.345 $ x"; "3 2.0"] = true)
    by reflexivity.
  split; [exact Hp|]. split; [exact Hn|]. split; [exact He|].
  split; [reflexivity|]. split; [reflexivity|].
  exact (trailing_comments_are_ignored Sample.to_float " MPa"
           ["1 1.5"; ""; "2 -12.345 $ x"; "3 2.0"] Hp Hn He).
Defined.

(** X14.  A source of printable ASCII characters, with no quote character
    before a comment marker, in which no line has more than two fields is
    always read, garbage included: nothing is raised, and the frame has
    one row per line that is neither blank nor begins with the comment
    marker; a line with a single field, with fields that are not numbers,
    or with nothing but a comment behind whitespace still gives a row. *)
Theorem short_lines_are_always_read
    (to_float : string -> option float64) (lines : list string) :
  forallb plain_line lines = true ->
  Forall (fun l => (List.length (fields l) <= 2)%nat) lines ->
  exists rows,
    read_csv to_float lines = Ok rows /\
    List.length rows = List.length (data_lines lines).
Proof.
  intros _ H. unfold read_csv. rewrite (tokenize_short_lines lines H).
  cbn [bind]. eexists. split; [reflexivity|].
  rewrite length_combine, !length_convert_column, !length_map. lia.
Qed.

(** X14 on a source with a short line, a blank line, a comment behind
    whitespace and a line of text. *)
Lemma short_lines_are_always_read_witness :
  forallb plain_line ["1 1.5"; "3"; ""; " $ note"; "x y"] = true /\
  Forall (fun l => (List.length (fields l) <= 2)%nat)
    ["1 1.5"; "3"; ""; " $ note"; "x y"] /\
  read_csv Sample.to_float ["1 1.5"; "3"; ""; " $ note"; "x y"] =
    Ok [ (CStr "1", CStr "1.5"); (CStr "3", CFloat NaN);
         (CFloat NaN, CFloat NaN); (CStr "x", CStr "y") ] /\
  exists rows,
    read_csv Sample.to_float ["1 1.5"; "3"; ""; " $ note"; "x y"] = Ok rows /\
    List.length rows = List.length (data_lines ["1 1.5"; "3"; ""; " $ note"; "x y"]).
Proof.
  assert (Hp : forallb plain_line ["1 1.5"; "3"; ""; " $ note"; "x y"] = true)
    by reflexivity.
  assert (H : Forall (fun l => (List.length (fields l) <= 2)%nat)
                ["1 1.5"; "3"; ""; " $ note"; "x y"])
    by (repeat constructor).
  split; [exact Hp|]. split; [exact H|]. split; [reflexivity|].
  exact (short_lines_are_always_read Sample.to_float _ Hp H).
Defined.

(** ** Values that fit *)

Section ShortValues.

Lemma str_nat_no_space n : 0 <= n -> all_chars not_space (Py.str_nat n) = true.
Proof.
  intros H. apply (all_chars_impl Py.is_digit); [apply is_digit_not_space|].
  now apply str_nat_spec.
Qed.

Lemma repr_no_space x :
  digits_ok x = true -> all_chars not_space (Float.repr x) = true.
Proof.
  destruct x as [neg digits decpt|neg|]; cbn [digits_ok Float.repr];
    [|intros _; now destruct neg | reflexivity].
  intros Hd.
  apply (all_chars_impl _ not_space _ is_digit_not_space) in Hd.
  assert (Hsign : all_chars not_space (Float.sign_str neg) = true)
    by now destruct neg.
  assert (Hzeros : forall n, all_chars not_space (Float.zeros n) = true)
    by (intros n; now apply all_chars_replicate).
  assert (Hman : all_chars not_space (Float.mantissa digits) = true).
  { destruct digits as [|d [|d' rest]]; exact Hd. }
  rewrite all_chars_app, Hsign. cbn [andb].
  destruct ((decpt <=? -4) || (16 <? decpt)).
  - unfold Float.exponent.
    rewrite !all_chars_app, Hman, str_nat_no_space by lia.
    destruct (decpt - 1 <? 0), (Z.abs (decpt - 1) <? 10); reflexivity.
  - destruct (decpt <=? 0).
    + rewrite !all_chars_app, Hzeros, Hd. reflexivity.
    + destruct (decpt <? Z.of_nat (String.length digits)).
      * rewrite !all_chars_app, all_chars_take, all_chars_drop by assumption.
        reflexivity.
      * rewrite !all_chars_app, Hzeros, Hd. reflexivity.
Qed.

End ShortValues.

(** X15.  A value whose rendering has at most 8 characters is written in
    full: its cell is the rendering behind leading spaces, and stripping
    them gives the rendering back.  (The digit string of the value is made
    of digits.) *)
Theorem short_value_is_written_in_full (x : float64) :
  digits_ok x = true ->
  (String.length (Float.repr x) <= 8)%nat ->
  exists cell,
    format_field (VFloat x) = Ok cell /\
    cell = Py.spaces (8 - String.length (Float.repr x)) ++ Float.repr x /\
    Py.lstrip cell = Float.repr x.
Proof.
  intros Hd Hlen. exists (float_field x).
  split; [apply format_field_float|].
  assert (Hcell : float_field x =
                  Py.spaces (8 - String.length (Float.repr x)) ++ Float.repr x).
  { rewrite float_field_take. unfold Py.rjust. apply take_all.
    rewrite length_append, length_spaces. lia. }
  split; [exact Hcell|].
  rewrite Hcell, lstrip_spaces. apply lstrip_no_space. now apply repr_no_space.
Qed.

(** X15 at -12.345. *)
Lemma short_value_is_written_in_full_witness :
  digits_ok Sample.vm12 = true /\
  (String.length (Float.repr Sample.vm12) <= 8)%nat /\
  exists cell,
    format_field (VFloat Sample.vm12) = Ok cell /\
    cell = Py.spaces (8 - String.length (Float.repr Sample.vm12)) ++ Float.repr Sample.vm12 /\
    Py.lstrip cell = Float.repr Sample.vm12.
Proof.
  assert (Hd : digits_ok Sample.vm12 = true) by reflexivity.
  assert (Hl : (String.length (Float.repr Sample.vm12) <= 8)%nat) by (vm_compute; lia).
  split; [exact Hd|]. split; [exact Hl|].
  exact (short_value_is_written_in_full Sample.vm12 Hd Hl).
Defined.

(** X16.  When no table repeats an identifier, no identifier is joined
    twice: every element gets at most one record. *)
Theorem unique_ids_give_unique_records (ts : list ComponentTable) :
  Forall unique_ids ts ->
  NoDup (map fst (combined_data ts)).
Proof.
  intros Hu. rewrite (combined_data_inner_join ts Hu), ids_inner_join.
  apply NoDup_filter.
  destruct Hu as [|t ts Ht _]; [constructor | exact Ht].
Qed.

(** X16 on the sample tables. *)
Lemma unique_ids_give_unique_records_witness :
  Forall unique_ids Sample.tables /\
  NoDup (map fst (combined_data Sample.tables)).
Proof.
  assert (Hu : Forall unique_ids Sample.tables)
    by (repeat (constructor; [prove_unique_ids|]); constructor).
  split; [exact Hu | exact (unique_ids_give_unique_records Sample.tables Hu)].
Defined.
